(** * Trail-Run-Planner: the plan generator of [src/utils/generator.ts]

    A shallow embedding of [generatePlan] and of the few pieces of the
    JavaScript runtime it relies on, followed by the properties of the
    generated plan.

    Modelling conventions.
    - A JavaScript number that holds an integer or NaN is a [number]:
      [Num z] or [NaN].  Every number the generator computes from dates and
      week indices is an integer whose magnitude is far below 2^53, so the
      floating-point operations on them are exact.
    - A JavaScript [Date] is a [JSDate]: the local calendar day it falls on
      (days since 1970-01-01), or [InvalidDate].  The time of day of
      [new Date()] is carried unchanged by [addDays] and never reaches the
      output, so it is left out.  The range limit of [Date] (about 10^8 days
      around the epoch) is not modelled: calendar days are unbounded.
    - The engine-defined parts ([new Date()], [new Date(string)] and
      date-fns' [format]) are the fields of a [Runtime] record.
    - A call either completes normally or throws: [completion]. *)

From Stdlib Require Import ZArith List String Ascii Bool Lia.
From Stdlib Require Import QArith Qminmax.
From Stdlib Require Import Permutation Sorted.
From Stdlib Require Import DecimalString.
From Equations Require Import Equations.
Import ListNotations.

#[local] Open Scope string_scope.
#[local] Open Scope list_scope.
#[local] Open Scope Z_scope.

(** ** JavaScript values *)

Inductive number : Type :=
| NaN
| Num (z : Z).

Inductive JSDate : Type :=
| InvalidDate
| Valid (day : Z).

Inductive JSError : Type :=
| RangeError (message : string).

Inductive completion (A : Type) : Type :=
| Normal (a : A)
| Throw (e : JSError).
Arguments Normal {A} a.
Arguments Throw {A} e.

Definition bind {A B : Type} (c : completion A) (k : A -> completion B)
  : completion B :=
  match c with
  | Normal a => k a
  | Throw e => Throw e
  end.

Notation "x <- c ;; k" := (bind c (fun x => k))
  (at level 61, c at next level, right associativity).

Module JS.

(** [a - b] *)
Definition sub (a b : number) : number :=
  match a, b with
  | Num x, Num y => Num (x - y)
  | _, _ => NaN
  end.

(** [a < b]: false as soon as one side is NaN. *)
Definition lt (a b : number) : bool :=
  match a, b with
  | Num x, Num y => x <? y
  | _, _ => false
  end.

(** [a >= b]: false as soon as one side is NaN. *)
Definition ge (a b : number) : bool :=
  match a, b with
  | Num x, Num y => x >=? y
  | _, _ => false
  end.

(** [Math.max(a, b)]: NaN as soon as one argument is NaN. *)
Definition max (a b : number) : number :=
  match a, b with
  | Num x, Num y => Num (Z.max x y)
  | _, _ => NaN
  end.

(** [Math.ceil(a / d)] for a positive integer constant [d]: the quotient
    rounded towards plus infinity. *)
Definition ceil_div (a : number) (d : Z) : number :=
  match a with
  | Num x => Num (- ((- x) / d))
  | NaN => NaN
  end.

(** Truthiness of a string: only the empty string is falsy. *)
Definition truthy (s : string) : bool :=
  match s with
  | EmptyString => false
  | String _ _ => true
  end.

(** A template literal prints an integer in decimal. *)
Definition show (z : Z) : string :=
  NilZero.string_of_int (Z.to_int z).

End JS.

(** ** The runtime: clock, date parsing, date formatting *)

Record Runtime : Type := {
  (** the calendar day of [new Date()] *)
  now : Z;
  (** [new Date(s)]: the calendar day of the parsed instant, or
      [InvalidDate] *)
  date_parse : string -> JSDate;
  (** date-fns [format(d, 'EEE, MMM d yyyy')] on a valid date *)
  date_format : Z -> string
}.

(** date-fns [addDays]: an invalid date stays invalid. *)
Definition addDays (d : JSDate) (amount : Z) : JSDate :=
  match d with
  | Valid day => Valid (day + amount)
  | InvalidDate => InvalidDate
  end.

(** date-fns [differenceInCalendarDays]: NaN when a date is invalid. *)
Definition differenceInCalendarDays (l r : JSDate) : number :=
  match l, r with
  | Valid a, Valid b => Num (a - b)
  | _, _ => NaN
  end.

(** [Date.prototype.getTime]: milliseconds of the day's midnight, NaN for an
    invalid date.  The offset of the time zone is left out: it does not
    change the sign of the difference of two days, which is all the sort
    reads. *)
Definition getTime (d : JSDate) : number :=
  match d with
  | Valid day => Num (day * 86400000)
  | InvalidDate => NaN
  end.

(** [fmt]: date-fns' [format] throws a [RangeError] on an invalid date. *)
Definition fmt (rt : Runtime) (d : JSDate) : completion string :=
  match d with
  | Valid day => Normal (date_format rt day)
  | InvalidDate => Throw (RangeError "Invalid time value")
  end.

(** ** Inputs and output rows

    [PlanInputs] is the type inferred from [PlanSchema] in
    [components/InputForm.tsx]; optional fields are [option]s. *)

Inductive PlanType : Type := race | maintenance | maintenance_plus.
Inductive CourseProfile : Type := flat | rolling | hilly | ultra.
Inductive RaceDistance : Type :=
  dist_10k | dist_half | dist_marathon | dist_50k | dist_custom.
Inductive HeatBlock : Type := none | monoblock | biphasic.
Inductive TimeVsDistance : Type := by_time | by_distance.

(** [===] and [!==] on the string literals of the enumerations. *)
Class StrictEq (A : Type) : Type := strict_eq : A -> A -> bool.
Infix "===" := strict_eq (at level 70, no associativity).
Notation "a !== b" := (negb (strict_eq a b)) (at level 70, no associativity).

#[global] Instance PlanType_eq : StrictEq PlanType := fun a b =>
  match a, b with
  | race, race | maintenance, maintenance
  | maintenance_plus, maintenance_plus => true
  | _, _ => false
  end.

#[global] Instance CourseProfile_eq : StrictEq CourseProfile := fun a b =>
  match a, b with
  | flat, flat | rolling, rolling | hilly, hilly | ultra, ultra => true
  | _, _ => false
  end.

#[global] Instance HeatBlock_eq : StrictEq HeatBlock := fun a b =>
  match a, b with
  | none, none | monoblock, monoblock | biphasic, biphasic => true
  | _, _ => false
  end.

Record PlanInputs : Type := {
  planType : PlanType;
  maxHR : Q;
  courseProfile : CourseProfile;
  raceDate : option string;
  raceDistance : RaceDistance;
  customDistanceKm : option Q;
  vt1 : option Q;
  vo2max : option Q;
  currentHours : option Q;
  maxHours : option Q;
  firefighter : option bool;
  shiftPattern : option string;
  nextShiftISO : option string;
  heatBlock : HeatBlock;
  strength : bool;
  timeVsDistance : TimeVsDistance
}.

Record PlanRow : Type := {
  date : string;
  session : string
}.

(** ** The generator *)

Definition today (rt : Runtime) : JSDate := Valid (now rt).

(** [inputs.raceDate ? new Date(inputs.raceDate) : today] *)
Definition raceDate_of (rt : Runtime) (inputs : PlanInputs) : JSDate :=
  match raceDate inputs with
  | Some s => if JS.truthy s then date_parse rt s else today rt
  | None => today rt
  end.

Definition totalWeeks (rt : Runtime) (inputs : PlanInputs) : number :=
  if planType inputs === race then
    (* number of weeks until the race (at least 4) *)
    let raceDate := raceDate_of rt inputs in
    let daysUntil := differenceInCalendarDays raceDate (today rt) in
    JS.max (Num 4) (JS.ceil_div daysUntil 7)
  else
    (* maintenance and maintenance plus default to 12 weeks *)
    Num 12.

(** The volume ramp.  [targetHrs] is computed in every week of the loop and
    never read; it is kept here, over the rationals, and plays no part in
    the rows. *)
Definition lerp (start stop t : Q) : Q := (start + (stop - start) * t)%Q.

Definition or_default (x : option Q) (dflt : Q) : Q :=
  match x with
  | Some h => if Qeq_bool h 0 then dflt else h
  | None => dflt
  end.

Definition curHrs (inputs : PlanInputs) : Q :=
  or_default (currentHours inputs) 5.

Definition maxHrs (inputs : PlanInputs) : Q :=
  or_default (maxHours inputs)
    (if planType inputs === race
     then Qmax (curHrs inputs + 2) 10
     else Qmax (curHrs inputs + 2) 8)%Q.

Definition targetHrs (inputs : PlanInputs) (weeks w : Z) : Q :=
  let t := if 1 <? weeks then (inject_Z w / inject_Z (weeks - 1))%Q else 1%Q in
  lerp (curHrs inputs) (maxHrs inputs) t.

Definition longSeed (inputs : PlanInputs) : Z :=
  if planType inputs === race then 90 else 60.

Definition long_run_session (minutes : Z) : string :=
  "Long run – " ++ JS.show minutes ++ " min easy".
Definition threshold_session : string := "Threshold 20 min continuous".
Definition uphill_tempo_session : string := "Uphill-Tempo 6×5 min".
Definition vo2max_session : string := "VO₂max 4×4 min".
Definition hwi_session : string := "HWI 19 min @ 40°C".
Definition additional_vo2_session : string := "Additional VO₂ 4×4 min".

(** [rows.push(r)] *)
Definition push (rows : list PlanRow) (r : PlanRow) : list PlanRow :=
  rows ++ [r].

(** [rows.push({ date: fmt(d), session: s })] *)
Definition push_on (rt : Runtime) (rows : list PlanRow) (d : JSDate)
    (s : string) : completion (list PlanRow) :=
  text <- fmt rt d ;;
  Normal (push rows {| date := text; session := s |}).

(** One iteration of the [for] loop, for week [w].  The ramp factor [t] and
    [targetHrs] of the source are computed here and never read: see
    [targetHrs]. *)
Definition week_body (rt : Runtime) (inputs : PlanInputs) (weeks : number)
    (w : Z) (rows : list PlanRow) : completion (list PlanRow) :=
  let weekStart := addDays (today rt) (w * 7) in
  (* 1) long run on Sunday (day index 6) *)
  let longRunMin := longSeed inputs + w * 10 in
  let longRunDate := addDays weekStart 6 in
  rows <- push_on rt rows longRunDate (long_run_session longRunMin) ;;
  (* 2) threshold or hill tempo on Wednesday (day index 2) *)
  let wednesdayDate := addDays weekStart 2 in
  let thrSession :=
    if courseProfile inputs === flat then threshold_session
    else if Z.rem w 2 =? 0 then uphill_tempo_session else threshold_session in
  rows <- push_on rt rows wednesdayDate thrSession ;;
  (* 3) VO2 intervals on Friday (day index 4), except every 4th week *)
  rows <- (if negb (Z.rem w 4 =? 3) then
             let fridayDate := addDays weekStart 4 in
             push_on rt rows fridayDate vo2max_session
           else Normal rows) ;;
  (* 4) heat-block placement *)
  rows <- (if (planType inputs === race) && (heatBlock inputs !== none) then
             rows <- (if (heatBlock inputs === monoblock)
                         && JS.ge (Num w) (JS.sub weeks (Num 2))
                      then
                        let tuesday := addDays weekStart 1 in
                        push_on rt rows tuesday hwi_session
                      else Normal rows) ;;
             if (heatBlock inputs === biphasic)
                && ((w <? 2) || JS.ge (Num w) (JS.sub weeks (Num 2)))
             then
               let blkDay := addDays weekStart 1 in
               push_on rt rows blkDay hwi_session
             else Normal rows
           else Normal rows) ;;
  (* 5) maintenance-plus: extra VO2 every other week *)
  if (planType inputs === maintenance_plus)
     && (Z.rem w 2 =? 1) && negb (Z.rem w 4 =? 3)
  then
    let saturdayDate := addDays weekStart 5 in
    push_on rt rows saturdayDate additional_vo2_session
  else Normal rows.

(** Iterations left when the loop test [w < totalWeeks] is evaluated. *)
Definition weeks_left (weeks : number) (w : Z) : nat :=
  match weeks with
  | Num n => Z.to_nat (n - w)
  | NaN => 0%nat
  end.

(** Remember the value a test evaluated to. *)
Definition inspect {A : Type} (a : A) : {b : A | a = b} := exist _ a eq_refl.

(** [for (let w = ...; w < totalWeeks; w++) { ... }], entered at [w]. *)
Equations? week_loop (rt : Runtime) (inputs : PlanInputs) (weeks : number)
    (w : Z) (rows : list PlanRow) : completion (list PlanRow)
    by wf (weeks_left weeks w) lt :=
  week_loop rt inputs weeks w rows with inspect (JS.lt (Num w) weeks) := {
    | exist _ true _ with inspect (week_body rt inputs weeks w rows) := {
        | exist _ (Normal rows') _ => week_loop rt inputs weeks (w + 1) rows'
        | exist _ (Throw e) _ => Throw e }
    | exist _ false _ => Normal rows }.
Proof.
  destruct weeks as [|n]; simpl in *; [discriminate|].
  apply Z.ltb_lt in e. apply Z2Nat.inj_lt; lia.
Defined.

(** The comparator handed to [rows.sort]. *)
Definition by_date (rt : Runtime) (a b : PlanRow) : number :=
  JS.sub (getTime (date_parse rt (date a))) (getTime (date_parse rt (date b))).

(** [Array.prototype.sort] is stable; a comparator result that is negative
    or zero (NaN counts as zero) leaves [a] before [b].  For a consistent
    comparator every stable sort returns the same array; insertion is the
    one written here. *)
Section ArraySort.
Context {A : Type} (cmp : A -> A -> number).

Definition stays_before (a b : A) : bool :=
  match cmp a b with
  | Num v => v <=? 0
  | NaN => true
  end.

Fixpoint sort_insert (a : A) (l : list A) : list A :=
  match l with
  | [] => [a]
  | b :: l' => if stays_before a b then a :: l else b :: sort_insert a l'
  end.

Definition array_sort (l : list A) : list A :=
  fold_right sort_insert [] l.
End ArraySort.

Definition generatePlan (rt : Runtime) (inputs : PlanInputs)
  : completion (list PlanRow) :=
  let weeks := totalWeeks rt inputs in
  rows <- week_loop rt inputs weeks 0 [] ;;
  Normal (array_sort (by_date rt) rows).

(** ** What the display format must give back

    [rows.sort] orders the rows by parsing their display strings again.
    [reparses rt d] says that the engine reads the display string of day
    [d] back as day [d]; [plan_days_reparse] asks it of the days of the
    weeks the loop runs through. *)

Definition reparses (rt : Runtime) (d : Z) : Prop :=
  date_parse rt (date_format rt d) = Valid d.

Definition plan_days_reparse (rt : Runtime) (inputs : PlanInputs) : Prop :=
  forall w k : Z,
    0 <= w -> JS.lt (Num w) (totalWeeks rt inputs) = true -> 0 <= k < 7 ->
    reparses rt (now rt + w * 7 + k).

Definition reparsesb (rt : Runtime) (d : Z) : bool :=
  match date_parse rt (date_format rt d) with
  | Valid d' => d' =? d
  | InvalidDate => false
  end.

Definition reparses_from (rt : Runtime) (lo : Z) (n : nat) : bool :=
  forallb (fun k => reparsesb rt (lo + Z.of_nat k)) (seq 0 n).

(** The calendar day a row's [date] field denotes. *)
Definition row_day (rt : Runtime) (r : PlanRow) : JSDate :=
  date_parse rt (date r).

Definition on_day (rt : Runtime) (d : Z) (r : PlanRow) : bool :=
  match row_day rt r with
  | Valid d' => d' =? d
  | InvalidDate => false
  end.

(** The row falls in week [w]: on one of the seven days from the week's
    start [today + 7 * w]. *)
Definition in_week (rt : Runtime) (w : Z) (r : PlanRow) : bool :=
  match row_day rt r with
  | Valid d => (now rt + w * 7 <=? d) && (d <? now rt + w * 7 + 7)
  | InvalidDate => false
  end.

Definition has_session (s : string) (r : PlanRow) : bool :=
  String.eqb (session r) s.

Definition is_long_run (r : PlanRow) : bool :=
  String.prefix "Long run" (session r).

(** The week index [w] is one the loop runs through: [0 <= w < totalWeeks]. *)
Definition plan_week (rt : Runtime) (inputs : PlanInputs) (w : Z) : Prop :=
  0 <= w /\ JS.lt (Num w) (totalWeeks rt inputs) = true.

Definition row_at (rt : Runtime) (d : Z) (s : string) : PlanRow :=
  {| date := date_format rt d; session := s |}.

(** ** The rule table of the specification

    The per-week rules as the specification words them (section 4.3), for a
    plan of [n] weeks; [week_rows] lists the rows of week [w] in the order
    of the rules. *)

Definition rule_long_run (inputs : PlanInputs) (w : Z) : string :=
  long_run_session
    ((match planType inputs with race => 90 | _ => 60 end) + 10 * w).

Definition rule_quality (inputs : PlanInputs) (w : Z) : string :=
  match courseProfile inputs with
  | flat => threshold_session
  | _ => if w mod 2 =? 0 then uphill_tempo_session else threshold_session
  end.

Definition rule_vo2 (w : Z) : bool := negb (w mod 4 =? 3).

Definition rule_heat (inputs : PlanInputs) (n w : Z) : bool :=
  match planType inputs, heatBlock inputs with
  | race, monoblock => n - 2 <=? w
  | race, biphasic => (w <? 2) || (n - 2 <=? w)
  | _, _ => false
  end.

Definition rule_extra (inputs : PlanInputs) (w : Z) : bool :=
  match planType inputs with
  | maintenance_plus => (w mod 2 =? 1) && negb (w mod 4 =? 3)
  | _ => false
  end.

Definition rows_when (b : bool) (r : PlanRow) : list PlanRow :=
  if b then [r] else [].

Definition week_rows (rt : Runtime) (inputs : PlanInputs) (n w : Z)
  : list PlanRow :=
  let start := now rt + w * 7 in
  [row_at rt (start + 6) (rule_long_run inputs w);
   row_at rt (start + 2) (rule_quality inputs w)]
  ++ rows_when (rule_vo2 w) (row_at rt (start + 4) vo2max_session)
  ++ rows_when (rule_heat inputs n w) (row_at rt (start + 1) hwi_session)
  ++ rows_when (rule_extra inputs w)
       (row_at rt (start + 5) additional_vo2_session).

(** The [k] week indices from [w] on. *)
Definition week_range (w : Z) (k : nat) : list Z :=
  map (fun j => w + Z.of_nat j) (seq 0 k).

Definition dated (rt : Runtime) (r : PlanRow) : Prop :=
  exists d, row_day rt r = Valid d.

(** [a] is dated no later than [b]. *)
Definition day_le (rt : Runtime) (a b : PlanRow) : Prop :=
  exists da db,
    row_day rt a = Valid da /\ row_day rt b = Valid db /\ da <= db.

(** ** A sample runtime: the proleptic Gregorian calendar, clock in UTC

    Used to run the generator on concrete inputs.  [parse] reads the two
    forms the program meets: the ISO form [yyyy-MM-dd] of the date field of
    the form, and the display form [EEE, MMM d yyyy] written by [fmt]. *)

Module Gregorian.

(** Days since 1970-01-01 of the civil date [y]-[m]-[d]. *)
Definition days_from_civil (y m d : Z) : Z :=
  let y' := if m <=? 2 then y - 1 else y in
  let era := y' / 400 in
  let yoe := y' - era * 400 in
  let mp := (m + 9) mod 12 in
  let doy := (153 * mp + 2) / 5 + d - 1 in
  let doe := yoe * 365 + yoe / 4 - yoe / 100 + doy in
  era * 146097 + doe - 719468.

Definition civil_from_days (z : Z) : Z * Z * Z :=
  let z := z + 719468 in
  let era := z / 146097 in
  let doe := z - era * 146097 in
  let yoe := (doe - doe / 1460 + doe / 36524 - doe / 146096) / 365 in
  let doy := doe - (365 * yoe + yoe / 4 - yoe / 100) in
  let mp := (5 * doy + 2) / 153 in
  let d := doy - (153 * mp + 2) / 5 + 1 in
  let m := if mp <? 10 then mp + 3 else mp - 9 in
  let y := yoe + era * 400 in
  (if m <=? 2 then y + 1 else y, m, d).

Definition weekdays : list string :=
  ["Sun"; "Mon"; "Tue"; "Wed"; "Thu"; "Fri"; "Sat"].
Definition months : list string :=
  ["Jan"; "Feb"; "Mar"; "Apr"; "May"; "Jun";
   "Jul"; "Aug"; "Sep"; "Oct"; "Nov"; "Dec"].

(** 1970-01-01 was a Thursday. *)
Definition weekday (z : Z) : Z := (z + 4) mod 7.

Definition format (z : Z) : string :=
  let '(y, m, d) := civil_from_days z in
  nth (Z.to_nat (weekday z)) weekdays "" ++ ", " ++
  nth (Z.to_nat (m - 1)) months "" ++ " " ++ JS.show d ++ " " ++ JS.show y.

Fixpoint split_on (sep : ascii) (s : string) : list string :=
  match s with
  | EmptyString => [EmptyString]
  | String c s' =>
      if Ascii.eqb c sep then EmptyString :: split_on sep s'
      else match split_on sep s' with
           | [] => [String c EmptyString]
           | t :: ts => String c t :: ts
           end
  end.

Definition digit (c : ascii) : option Z :=
  let n := Z.of_nat (nat_of_ascii c) in
  if (48 <=? n) && (n <=? 57) then Some (n - 48) else None.

Fixpoint read_digits (s : string) (acc : Z) : option Z :=
  match s with
  | EmptyString => Some acc
  | String c s' =>
      match digit c with
      | Some v => read_digits s' (10 * acc + v)
      | None => None
      end
  end.

Definition read_number (s : string) : option Z :=
  match s with
  | EmptyString => None
  | _ => read_digits s 0
  end.

Fixpoint index_of (s : string) (l : list string) (i : Z) : option Z :=
  match l with
  | [] => None
  | t :: l' => if String.eqb s t then Some i else index_of s l' (i + 1)
  end.

(** The date [y]-[m]-[d] if the calendar has it. *)
Definition civil (y m d : Z) : JSDate :=
  let z := days_from_civil y m d in
  let '(y', m', d') := civil_from_days z in
  if (y' =? y) && (m' =? m) && (d' =? d) then Valid z else InvalidDate.

Definition parse_iso (s : string) : JSDate :=
  match split_on "-" s with
  | [ys; ms; ds] =>
      match read_number ys, read_number ms, read_number ds with
      | Some y, Some m, Some d =>
          if (String.length ys =? 4)%nat && (String.length ms =? 2)%nat
             && (String.length ds =? 2)%nat
          then civil y m d else InvalidDate
      | _, _, _ => InvalidDate
      end
  | _ => InvalidDate
  end.

Definition parse_display (s : string) : JSDate :=
  match split_on " " s with
  | [wd; mon; ds; ys] =>
      match index_of mon months 1, read_number ds, read_number ys with
      | Some m, Some d, Some y =>
          match civil y m d with
          | Valid z =>
              if String.eqb wd (nth (Z.to_nat (weekday z)) weekdays "" ++ ",")
              then Valid z else InvalidDate
          | InvalidDate => InvalidDate
          end
      | _, _, _ => InvalidDate
      end
  | _ => InvalidDate
  end.

Definition parse (s : string) : JSDate :=
  match parse_iso s with
  | Valid z => Valid z
  | InvalidDate => parse_display s
  end.

Definition runtime (today : Z) : Runtime :=
  {| now := today; date_parse := parse; date_format := format |}.

(** Monday 2 June 2025. *)
Definition monday : Z := days_from_civil 2025 6 2.

End Gregorian.

Definition sample_inputs (pt : PlanType) (rd : option string)
    (cp : CourseProfile) (hb : HeatBlock) : PlanInputs :=
  {| planType := pt; maxHR := 180; courseProfile := cp; raceDate := rd;
     raceDistance := dist_50k; customDistanceKm := None;
     vt1 := None; vo2max := None; currentHours := None; maxHours := None;
     firefighter := None; shiftPattern := None; nextShiftISO := None;
     heatBlock := hb; strength := false; timeVsDistance := by_time |}.

(** The clock of the examples: the sample runtime on Monday 2 June 2025. *)
Definition june2 : Runtime := Gregorian.runtime Gregorian.monday.

(** The scenario of the specification: a race 28 days away on a flat
    course, no heat block. *)
Definition four_week_race : PlanInputs :=
  sample_inputs race (Some "2025-06-30") flat none.

(** A race 42 days away on a rolling course, with a heat block. *)
Definition six_week_race (hb : HeatBlock) : PlanInputs :=
  sample_inputs race (Some "2025-07-14") rolling hb.

Definition hilly_maintenance_plus : PlanInputs :=
  sample_inputs maintenance_plus None hilly none.

(** A race plan whose race date cannot be parsed. *)
Definition unparseable_race : PlanInputs :=
  sample_inputs race (Some "not-a-date") flat none.

(** ** The rows of a week in calendar order

    The same rows as [week_rows], listed by their day offset from the
    week's start: heat block (1), midweek quality (2), VO2 intervals (4),
    maintenance-plus extra (5), long run (6). *)

Definition week_rows_by_day (rt : Runtime) (inputs : PlanInputs) (n w : Z)
  : list PlanRow :=
  let start := now rt + w * 7 in
  rows_when (rule_heat inputs n w) (row_at rt (start + 1) hwi_session)
  ++ [row_at rt (start + 2) (rule_quality inputs w)]
  ++ rows_when (rule_vo2 w) (row_at rt (start + 4) vo2max_session)
  ++ rows_when (rule_extra inputs w)
       (row_at rt (start + 5) additional_vo2_session)
  ++ [row_at rt (start + 6) (rule_long_run inputs w)].

(** The day number a row is dated on (0 when its date does not parse). *)
Definition day_of (rt : Runtime) (r : PlanRow) : Z :=
  match row_day rt r with
  | Valid d => d
  | InvalidDate => 0
  end.

(** Order of two elements by an integer key. *)
Definition key_lt {A : Type} (key : A -> Z) (a b : A) : Prop := key a < key b.
Definition key_le {A : Type} (key : A -> Z) (a b : A) : Prop := key a <= key b.

(** ** The preview table of [components/PlanPreview.tsx]

    A rendered React element is a tree of tags with a [key], inline style
    entries and children, or a text node.  A style value is a number, a
    string, or [undefined]. *)

Inductive StyleValue : Type :=
| num (n : Z)
| css (s : string)
| css_undefined.

#[warnings="-register-all"]
Inductive Element : Type :=
| Tag (name : string) (key : option nat)
      (style : list (string * StyleValue)) (children : list Element)
| Text (s : string).

(** [l.map((x, i) => f x i)], counting from [i]. *)
Fixpoint map_index {A B : Type} (f : A -> nat -> B) (i : nat) (l : list A)
  : list B :=
  match l with
  | [] => []
  | x :: l' => f x i :: map_index f (S i) l'
  end.

(** One [<tr>] of the table.  A [PlanRow] has no [color] field, so
    [row.color] is [undefined]. *)
Definition preview_row (row : PlanRow) (i : nat) : Element :=
  Tag "tr" (Some i) [("background", css_undefined)]
    [Tag "td" None [("padding", num 8); ("fontFamily", css "monospace")]
       [Text (date row)];
     Tag "td" None [("padding", num 8)] [Text (session row)]].

(** [null] is [None]. *)
Definition PlanPreview (rows : list PlanRow) : option Element :=
  if (List.length rows =? 0)%nat then None
  else
    Some
      (Tag "div" None
         [("border", css "1px solid #ccc"); ("borderRadius", num 6);
          ("padding", num 16)]
         [Tag "h2" None [("fontWeight", num 600); ("marginBottom", num 8)]
            [Text "Plan preview"];
          Tag "table" None
            [("width", css "100%"); ("borderCollapse", css "collapse")]
            [Tag "tbody" None [] (map_index preview_row 0 rows)]]).

(** The text nodes of an element, in document order. *)
Fixpoint texts (e : Element) : list string :=
  match e with
  | Text s => [s]
  | Tag _ _ _ children => flat_map texts children
  end.

(** The elements with a given tag name, in document order
    ([getElementsByTagName]). *)
Fixpoint by_tag (name : string) (e : Element) : list Element :=
  match e with
  | Text _ => []
  | Tag t _ _ children =>
      (if String.eqb t name then [e] else [])
      ++ flat_map (by_tag name) children
  end.

Definition key_of (e : Element) : option nat :=
  match e with
  | Tag _ k _ _ => k
  | Text _ => None
  end.

(** What [App] shows below the form once [handleGenerate] has stored
    [generatePlan(data)] in its state: [<PlanPreview rows={rows} />]. *)
Definition preview_after_generate (rt : Runtime) (inputs : PlanInputs)
  : completion (option Element) :=
  rows <- generatePlan rt inputs ;;
  Normal (PlanPreview rows).

(** ** The validation schema of [components/InputForm.tsx]

    [PlanSchema] on a record that already has the field types of
    [PlanInputs]: what is left to check are the bounds on the numbers. *)

(** [z.number().min(lo).max(hi)] *)
Definition min_max (lo hi x : Q) : bool := Qle_bool lo x && Qle_bool x hi.

(** [z.number().positive()] *)
Definition positive (x : Q) : bool := negb (Qle_bool x 0).

(** [.optional()] *)
Definition optional {A : Type} (check : A -> bool) (x : option A) : bool :=
  match x with
  | Some v => check v
  | None => true
  end.

Definition PlanSchema (i : PlanInputs) : bool :=
  min_max 100 230 (maxHR i)
  && optional positive (customDistanceKm i)
  && optional (min_max 60 200) (vt1 i)
  && optional (min_max 20 90) (vo2max i)
  && optional positive (currentHours i)
  && optional positive (maxHours i).

(** [{ ...inputs, raceDate: rd }] *)
Definition with_raceDate (i : PlanInputs) (rd : option string) : PlanInputs :=
  {| planType := planType i; maxHR := maxHR i;
     courseProfile := courseProfile i; raceDate := rd;
     raceDistance := raceDistance i;
     customDistanceKm := customDistanceKm i;
     vt1 := vt1 i; vo2max := vo2max i;
     currentHours := currentHours i; maxHours := maxHours i;
     firefighter := firefighter i; shiftPattern := shiftPattern i;
     nextShiftISO := nextShiftISO i; heatBlock := heatBlock i;
     strength := strength i; timeVsDistance := timeVsDistance i |}.

(** * Supporting lemmas *)

(** ** Lists *)

Section ListFacts.
Context {A : Type}.

Lemma filter_both (f g : A -> bool) (l : list A) :
  filter (fun x => f x && g x) l = filter g (filter f l).
Proof.
  induction l as [|x l IH]; simpl; [reflexivity|].
  destruct (f x); simpl; [|exact IH].
  destruct (g x); simpl; now rewrite IH.
Qed.

Lemma Permutation_filter (f : A -> bool) (l l' : list A) :
  Permutation l l' -> Permutation (filter f l) (filter f l').
Proof.
  induction 1 as [|x l l' _ IH|x y l|l l' l'' _ IH1 _ IH2]; simpl.
  - constructor.
  - destruct (f x); [constructor|]; exact IH.
  - destruct (f x), (f y); try reflexivity. constructor.
  - etransitivity; eassumption.
Qed.

Lemma filter_none (f : A -> bool) (l : list A) :
  Forall (fun x => f x = false) l -> filter f l = [].
Proof.
  induction 1 as [|x l Hx _ IH]; simpl; [reflexivity|].
  now rewrite Hx.
Qed.

Lemma filter_all (f : A -> bool) (l : list A) :
  Forall (fun x => f x = true) l -> filter f l = l.
Proof.
  induction 1 as [|x l Hx _ IH]; simpl; [reflexivity|].
  now rewrite Hx, IH.
Qed.

Lemma Sorted_adjacent (R : A -> A -> Prop) (l : list A) :
  Sorted R l ->
  forall k a b,
    nth_error l k = Some a -> nth_error l (S k) = Some b -> R a b.
Proof.
  induction 1 as [|x l Hs IH Hd]; intros k a b Ha Hb.
  - destruct k; discriminate.
  - destruct k as [|k]; simpl in Ha, Hb.
    + injection Ha as <-. destruct l as [|y l]; [discriminate|].
      injection Hb as <-. now inversion Hd.
    + eapply IH; eassumption.
Qed.
End ListFacts.

(** ** [Array.prototype.sort] *)

Section SortFacts.
Context {A : Type} (cmp : A -> A -> number).

Lemma sort_insert_perm (a : A) (l : list A) :
  Permutation (sort_insert cmp a l) (a :: l).
Proof.
  induction l as [|b l IH]; simpl; [reflexivity|].
  destruct (stays_before cmp a b); [reflexivity|].
  rewrite IH. apply perm_swap.
Qed.

Lemma array_sort_perm (l : list A) : Permutation (array_sort cmp l) l.
Proof.
  induction l as [|a l IH]; simpl; [constructor|].
  rewrite sort_insert_perm. now constructor.
Qed.
End SortFacts.

Section SortByDate.
Variable rt : Runtime.

Lemma stays_before_days (a b : PlanRow) (da db : Z) :
  row_day rt a = Valid da -> row_day rt b = Valid db ->
  stays_before (by_date rt) a b = (da <=? db).
Proof.
  unfold stays_before, by_date, row_day. intros -> ->. simpl.
  destruct (Z.leb_spec da db), (Z.leb_spec (da * 86400000 - db * 86400000) 0);
    (reflexivity || lia).
Qed.

Lemma sort_insert_sorted (a : PlanRow) (l : list PlanRow) :
  dated rt a -> Forall (dated rt) l -> Sorted (day_le rt) l ->
  Sorted (day_le rt) (sort_insert (by_date rt) a l).
Proof.
  intros [da Ha] Hl Hs. induction Hs as [|b l Hs IH Hd]; simpl.
  - repeat constructor.
  - inversion Hl as [|? ? [db Hb] Hl']; subst.
    rewrite (stays_before_days a b da db Ha Hb).
    destruct (Z.leb_spec da db) as [Hle|Hlt].
    + constructor; [now constructor|]. constructor.
      exists da, db. auto.
    + constructor; [now apply IH|].
      destruct l as [|c l]; simpl.
      * constructor. exists db, da. repeat split; auto; lia.
      * destruct (stays_before (by_date rt) a c).
        -- constructor. exists db, da. repeat split; auto; lia.
        -- constructor. now inversion Hd.
Qed.

Lemma array_sort_sorted (l : list PlanRow) :
  Forall (dated rt) l -> Sorted (day_le rt) (array_sort (by_date rt) l).
Proof.
  induction 1 as [|a l Ha Hl IH]; simpl; [constructor|].
  apply sort_insert_sorted; auto.
  eapply Permutation_Forall; [|exact Hl].
  symmetry. apply array_sort_perm.
Qed.
End SortByDate.

(** ** The loop against the rule table *)

Section Refinement.
Variables (rt : Runtime) (inputs : PlanInputs).

Lemma push_on_valid (rows : list PlanRow) (d : Z) (s : string) :
  push_on rt rows (Valid d) s = Normal (rows ++ [row_at rt d s]).
Proof. reflexivity. Qed.

Lemma longSeed_rule (w : Z) :
  long_run_session (longSeed inputs + w * 10) = rule_long_run inputs w.
Proof.
  unfold rule_long_run, longSeed. f_equal.
  destruct (planType inputs); cbv [strict_eq PlanType_eq]; lia.
Qed.

(** One iteration appends the rows of the rule table, in its order. *)
Lemma week_body_rows (n w : Z) (rows : list PlanRow) :
  0 <= w ->
  week_body rt inputs (Num n) w rows
  = Normal (rows ++ week_rows rt inputs n w).
Proof.
  intros Hw. unfold week_body, week_rows, today, addDays.
  repeat (rewrite push_on_valid; cbn [bind]).
  rewrite longSeed_rule.
  rewrite !Z.rem_mod_nonneg by lia.
  assert (Hq : (if courseProfile inputs === flat then threshold_session
                else if w mod 2 =? 0 then uphill_tempo_session
                     else threshold_session) = rule_quality inputs w)
    by (unfold rule_quality; now destruct (courseProfile inputs)).
  rewrite Hq. clear Hq.
  unfold rule_vo2, rule_heat, rule_extra, rows_when, JS.ge, JS.sub.
  rewrite Z.geb_leb.
  destruct (w mod 4 =? 3); cbn [negb bind];
    destruct (planType inputs), (heatBlock inputs);
    cbv [strict_eq PlanType_eq HeatBlock_eq]; cbn [bind andb negb];
    repeat match goal with
      | |- context [if ?b then _ else _] =>
          destruct b; cbn [bind andb orb negb]
      end;
    repeat (rewrite push_on_valid; cbn [bind]);
    rewrite <- ?app_assoc; reflexivity.
Qed.

Lemma week_range_S (w : Z) (k : nat) :
  week_range w (S k) = w :: week_range (w + 1) k.
Proof.
  unfold week_range. simpl. f_equal; [lia|].
  rewrite <- seq_shift, map_map. apply map_ext. intros j. lia.
Qed.

Lemma in_week_range (w : Z) (k : nat) (x : Z) :
  In x (week_range w k) <-> w <= x < w + Z.of_nat k.
Proof.
  unfold week_range. rewrite in_map_iff. split.
  - intros (j & <- & Hj). apply in_seq in Hj. lia.
  - intros Hx. exists (Z.to_nat (x - w)). split; [lia|].
    apply in_seq. lia.
Qed.

(** The loop, one test at a time. *)
Lemma week_loop_step (weeks : number) (w : Z) (rows : list PlanRow) :
  week_loop rt inputs weeks w rows
  = if JS.lt (Num w) weeks
    then rows' <- week_body rt inputs weeks w rows ;;
         week_loop rt inputs weeks (w + 1) rows'
    else Normal rows.
Proof.
  funelim (week_loop rt inputs weeks w rows).
  - rewrite e. reflexivity.
  - rewrite e, e0. reflexivity.
  - rewrite e0, e2. reflexivity.
Qed.

Lemma week_loop_rows (n : Z) (k : nat) :
  forall (w : Z) (rows : list PlanRow),
    0 <= w -> weeks_left (Num n) w = k ->
    week_loop rt inputs (Num n) w rows
    = Normal (rows ++ flat_map (week_rows rt inputs n) (week_range w k)).
Proof.
  induction k as [|k IH]; intros w rows Hw Hk;
    rewrite week_loop_step; unfold weeks_left in Hk; simpl JS.lt.
  - destruct (Z.ltb_spec w n); [lia|].
    simpl. now rewrite app_nil_r.
  - destruct (Z.ltb_spec w n); [|lia].
    rewrite week_body_rows by assumption. cbn [bind].
    rewrite IH; [|lia|unfold weeks_left; lia].
    rewrite week_range_S. simpl. now rewrite <- app_assoc.
Qed.

Lemma week_loop_NaN (w : Z) (rows : list PlanRow) :
  week_loop rt inputs NaN w rows = Normal rows.
Proof. now rewrite week_loop_step. Qed.

Lemma generatePlan_rows (n : Z) :
  totalWeeks rt inputs = Num n ->
  generatePlan rt inputs
  = Normal (array_sort (by_date rt)
              (flat_map (week_rows rt inputs n)
                 (week_range 0 (Z.to_nat n)))).
Proof.
  intros Hn. unfold generatePlan. rewrite Hn. cbv zeta.
  rewrite (week_loop_rows n (Z.to_nat n));
    [reflexivity | lia | unfold weeks_left; f_equal; lia].
Qed.

Lemma generatePlan_NaN :
  totalWeeks rt inputs = NaN -> generatePlan rt inputs = Normal [].
Proof.
  intros Hn. unfold generatePlan. rewrite Hn. cbv zeta.
  now rewrite week_loop_NaN.
Qed.

(** The generator never throws: it formats days counted from today
    only. *)
Lemma generatePlan_normal :
  exists rows, generatePlan rt inputs = Normal rows.
Proof.
  destruct (totalWeeks rt inputs) as [|n] eqn:Hn.
  - rewrite (generatePlan_NaN Hn). now eexists.
  - rewrite (generatePlan_rows n Hn). now eexists.
Qed.
End Refinement.

(** ** The week count *)

Lemma ceil_div_7 (x : Z) : - ((- x) / 7) = (x + 6) / 7.
Proof.
  pose proof (Z.div_mod (- x) 7 ltac:(lia)).
  pose proof (Z.mod_pos_bound (- x) 7 ltac:(lia)).
  pose proof (Z.div_mod (x + 6) 7 ltac:(lia)).
  pose proof (Z.mod_pos_bound (x + 6) 7 ltac:(lia)).
  lia.
Qed.

Lemma totalWeeks_race (rt : Runtime) (inputs : PlanInputs) (d : Z) :
  planType inputs = race -> raceDate_of rt inputs = Valid d ->
  totalWeeks rt inputs = Num (Z.max 4 (- ((- (d - now rt)) / 7))).
Proof.
  unfold totalWeeks. intros -> ->. reflexivity.
Qed.

Lemma totalWeeks_at_least_4 (rt : Runtime) (inputs : PlanInputs) (n : Z) :
  totalWeeks rt inputs = Num n -> 4 <= n.
Proof.
  unfold totalWeeks, JS.max, JS.ceil_div.
  destruct (planType inputs);
    [destruct (differenceInCalendarDays _ _); [discriminate|]| |];
    intros [= <-]; lia.
Qed.

Lemma plan_week_iff (rt : Runtime) (inputs : PlanInputs) (n w : Z) :
  totalWeeks rt inputs = Num n ->
  plan_week rt inputs w <-> 0 <= w < n.
Proof.
  unfold plan_week. intros ->. simpl. rewrite Z.ltb_lt. tauto.
Qed.

(** ** The rows of one week within the plan *)

Section PlanRows.
Variables (rt : Runtime) (inputs : PlanInputs) (n : Z).
Hypothesis Hn : totalWeeks rt inputs = Num n.
Hypothesis Hrt : plan_days_reparse rt inputs.

Lemma plan_day_reparses (w k : Z) :
  0 <= w < n -> 0 <= k < 7 -> reparses rt (now rt + w * 7 + k).
Proof.
  intros Hw Hk. apply Hrt; [lia| |lia].
  rewrite Hn. simpl. apply Z.ltb_lt. lia.
Qed.

Lemma row_at_day (w k : Z) (s : string) :
  0 <= w < n -> 0 <= k < 7 ->
  row_day rt (row_at rt (now rt + w * 7 + k) s) = Valid (now rt + w * 7 + k).
Proof. intros Hw Hk. now apply plan_day_reparses. Qed.

(** Every row of week [w] is dated within the week. *)
Lemma week_rows_days (w : Z) :
  0 <= w < n ->
  Forall (fun r => exists k, 0 <= k < 7 /\
                    row_day rt r = Valid (now rt + w * 7 + k))
    (week_rows rt inputs n w).
Proof.
  intros Hw. unfold week_rows, rows_when.
  repeat match goal with
    | |- context [if ?b then _ else _] => destruct b
    end; cbn [app];
    repeat (constructor;
            [eexists; split; [|now apply row_at_day; [exact Hw|lia]]; lia|]);
    constructor.
Qed.

Lemma week_rows_in_week (w w' : Z) :
  0 <= w' < n ->
  Forall (fun r => in_week rt w r = (w =? w')) (week_rows rt inputs n w').
Proof.
  intros Hw'. eapply Forall_impl; [|apply week_rows_days, Hw'].
  intros r (k & Hk & Hr). unfold in_week. rewrite Hr.
  destruct (Z.eqb_spec w w'); lia.
Qed.

Lemma filter_week_rows (w w' : Z) :
  0 <= w' < n ->
  filter (in_week rt w) (week_rows rt inputs n w')
  = if w =? w' then week_rows rt inputs n w' else [].
Proof.
  intros Hw'. pose proof (week_rows_in_week w w' Hw') as H.
  destruct (w =? w'); [now apply filter_all | now apply filter_none].
Qed.

Lemma filter_week_range (w : Z) (k : nat) :
  forall a, 0 <= a -> a + Z.of_nat k <= n ->
    filter (in_week rt w)
      (flat_map (week_rows rt inputs n) (week_range a k))
    = if (a <=? w) && (w <? a + Z.of_nat k)
      then week_rows rt inputs n w else [].
Proof.
  induction k as [|k IH]; intros a Ha Hk.
  - simpl. destruct (a <=? w) eqn:E1, (w <? a + 0) eqn:E2; try reflexivity.
    lia.
  - rewrite week_range_S. cbn [flat_map]. rewrite filter_app.
    rewrite filter_week_rows by lia. rewrite IH by lia.
    destruct (Z.eqb_spec w a), (Z.leb_spec (a + 1) w), (Z.leb_spec a w),
      (Z.ltb_spec w (a + 1 + Z.of_nat k)),
      (Z.ltb_spec w (a + Z.of_nat (S k)));
      cbn [andb app]; rewrite ?app_nil_r; subst; (reflexivity || lia).
Qed.

Variable rows : list PlanRow.
Hypothesis Hrows : generatePlan rt inputs = Normal rows.

Lemma plan_rows_perm :
  Permutation rows
    (flat_map (week_rows rt inputs n) (week_range 0 (Z.to_nat n))).
Proof.
  pose proof Hrows as E.
  rewrite (generatePlan_rows rt inputs n Hn) in E. injection E as E.
  rewrite <- E. apply array_sort_perm.
Qed.

(** The rows of the plan that fall in week [w] are the rows of the rule
    table for that week. *)
Lemma plan_rows_of_week (w : Z) :
  0 <= w < n ->
  Permutation (filter (in_week rt w) rows) (week_rows rt inputs n w).
Proof.
  intros Hw. rewrite (Permutation_filter _ _ _ plan_rows_perm).
  rewrite filter_week_range by lia.
  destruct (Z.leb_spec 0 w), (Z.ltb_spec w (0 + Z.of_nat (Z.to_nat n)));
    cbn [andb]; (reflexivity || lia).
Qed.

Lemma plan_rows_select (P : PlanRow -> bool) (w : Z) :
  0 <= w < n ->
  Permutation (filter (fun r => in_week rt w r && P r) rows)
    (filter P (week_rows rt inputs n w)).
Proof.
  intros Hw. rewrite filter_both.
  apply Permutation_filter, plan_rows_of_week, Hw.
Qed.

Lemma plan_rows_select_one (P : PlanRow -> bool) (w : Z) (r : PlanRow) :
  0 <= w < n ->
  filter P (week_rows rt inputs n w) = [r] ->
  filter (fun r => in_week rt w r && P r) rows = [r].
Proof.
  intros Hw Hr. apply Permutation_length_1_inv.
  rewrite <- Hr. symmetry. now apply plan_rows_select.
Qed.

Lemma plan_rows_select_none (P : PlanRow -> bool) (w : Z) :
  0 <= w < n ->
  filter P (week_rows rt inputs n w) = [] ->
  filter (fun r => in_week rt w r && P r) rows = [].
Proof.
  intros Hw Hr. apply Permutation_nil.
  rewrite <- Hr. symmetry. now apply plan_rows_select.
Qed.

(** Every row of the plan comes from the rule table of one of its
    weeks. *)
Lemma plan_rows_in (r : PlanRow) :
  In r rows <-> exists w, 0 <= w < n /\ In r (week_rows rt inputs n w).
Proof.
  split.
  - intros Hr. apply (Permutation_in _ plan_rows_perm) in Hr.
    apply in_flat_map in Hr as (w & Hw & Hin).
    apply in_week_range in Hw. exists w. split; [lia|exact Hin].
  - intros (w & Hw & Hin).
    apply (Permutation_in _ (Permutation_sym plan_rows_perm)).
    apply in_flat_map. exists w. split; [|exact Hin].
    apply in_week_range. lia.
Qed.

Lemma plan_rows_dated : Forall (dated rt) rows.
Proof.
  apply Forall_forall. intros r Hr.
  apply plan_rows_in in Hr as (w & Hw & Hin).
  pose proof (week_rows_days w Hw) as Hd.
  rewrite Forall_forall in Hd. destruct (Hd r Hin) as (k & _ & Hk).
  now exists (now rt + w * 7 + k).
Qed.

Lemma plan_rows_sorted : Sorted (day_le rt) rows.
Proof.
  pose proof Hrows as E.
  rewrite (generatePlan_rows rt inputs n Hn) in E. injection E as E.
  rewrite <- E. apply array_sort_sorted.
  eapply Permutation_Forall; [exact plan_rows_perm|exact plan_rows_dated].
Qed.
End PlanRows.

(** ** Checking a runtime on the days of a plan *)

Lemma reparsesb_sound (rt : Runtime) (d : Z) :
  reparsesb rt d = true -> reparses rt d.
Proof.
  unfold reparsesb, reparses.
  destruct (date_parse rt (date_format rt d)) as [|d']; [discriminate|].
  intros H. apply Z.eqb_eq in H. now subst.
Qed.

Lemma reparses_from_sound (rt : Runtime) (inputs : PlanInputs) (n : Z) :
  totalWeeks rt inputs = Num n ->
  reparses_from rt (now rt) (Z.to_nat (n * 7)) = true ->
  plan_days_reparse rt inputs.
Proof.
  intros Hn Hall w k Hw Hlt Hk. rewrite Hn in Hlt. simpl in Hlt.
  apply Z.ltb_lt in Hlt. apply reparsesb_sound.
  unfold reparses_from in Hall. rewrite forallb_forall in Hall.
  replace (now rt + w * 7 + k)
    with (now rt + Z.of_nat (Z.to_nat (w * 7 + k))) by lia.
  apply Hall, in_seq. lia.
Qed.

(** * The properties of the specification *)

(** ** Plan length *)

(** C1. A maintenance or maintenance-plus plan has exactly 12 weeks whatever
    the race date.  A race plan whose race date parses to day [d] has
    [max(4, c)] weeks, where [c] is the ceiling of [(d - today) / 7]: 4
    weeks for today + 28 days, 10 weeks for today + 70 days, 4 weeks for a
    date that is not in the future.  A missing race date counts as today and
    gives 4 weeks.  In the last two cases the generator returns without an
    error. *)
Theorem plan_length (rt : Runtime) (inputs : PlanInputs) :
  (planType inputs = maintenance \/ planType inputs = maintenance_plus ->
   totalWeeks rt inputs = Num 12)
  /\ (planType inputs = race ->
      (forall s d,
          raceDate inputs = Some s -> JS.truthy s = true ->
          date_parse rt s = Valid d ->
          (exists c, 7 * (c - 1) < d - now rt <= 7 * c /\
                     totalWeeks rt inputs = Num (Z.max 4 c))
          /\ (d = now rt + 28 -> totalWeeks rt inputs = Num 4)
          /\ (d = now rt + 70 -> totalWeeks rt inputs = Num 10)
          /\ (d <= now rt ->
              totalWeeks rt inputs = Num 4 /\
              exists rows, generatePlan rt inputs = Normal rows))
      /\ (raceDate inputs = None \/ raceDate inputs = Some "" ->
          raceDate_of rt inputs = today rt /\
          totalWeeks rt inputs = Num 4 /\
          exists rows, generatePlan rt inputs = Normal rows)).
Proof.
  split; [|intros Hrace; split].
  - unfold totalWeeks. now intros [-> | ->].
  - intros s d Hs Ht Hd.
    assert (Hr : raceDate_of rt inputs = Valid d).
    { unfold raceDate_of. now rewrite Hs, Ht. }
    pose proof (totalWeeks_race rt inputs d Hrace Hr) as Hw.
    rewrite ceil_div_7 in Hw.
    pose proof (Z.div_mod (d - now rt + 6) 7 ltac:(lia)) as Hdm.
    pose proof (Z.mod_pos_bound (d - now rt + 6) 7 ltac:(lia)) as Hmb.
    repeat split.
    + exists ((d - now rt + 6) / 7). split; [lia|exact Hw].
    + intros ->. rewrite Hw. f_equal.
      replace (now rt + 28 - now rt + 6) with 34 by lia. reflexivity.
    + intros ->. rewrite Hw. f_equal.
      replace (now rt + 70 - now rt + 6) with 76 by lia. reflexivity.
    + rewrite Hw. f_equal. lia.
    + apply generatePlan_normal.
  - intros Hmissing.
    assert (Hr : raceDate_of rt inputs = today rt).
    { unfold raceDate_of. now destruct Hmissing as [-> | ->]. }
    repeat split; [exact Hr| |apply generatePlan_normal].
    rewrite (totalWeeks_race rt inputs (now rt) Hrace Hr).
    now rewrite Z.sub_diag.
Qed.

(** C1, run: on Monday 2 June 2025 a race on 11 August 2025, 70 days away,
    gives a plan of 10 weeks. *)
Lemma plan_length_witness :
  totalWeeks june2 (sample_inputs race (Some "2025-08-11") flat none)
  = Num 10.
Proof.
  destruct (plan_length june2
              (sample_inputs race (Some "2025-08-11") flat none))
    as (_ & Hrace).
  destruct (Hrace eq_refl) as (Hparsed & _).
  destruct (Hparsed "2025-08-11" (now june2 + 70) eq_refl eq_refl eq_refl)
    as (_ & _ & H70 & _).
  exact (H70 eq_refl).
Defined.

(** ** An unparseable race date *)

(** C2, as stated, fails: on a race plan whose race date is the string
    [not-a-date] the week count is NaN and the generator returns the empty
    plan; nothing is thrown. *)
Lemma invalid_date_is_not_reported :
  planType unparseable_race = race
  /\ raceDate unparseable_race = Some "not-a-date"
  /\ date_parse june2 "not-a-date" = InvalidDate
  /\ totalWeeks june2 unparseable_race = NaN
  /\ generatePlan june2 unparseable_race = Normal []
  /\ ~ (exists e, generatePlan june2 unparseable_race = Throw e).
Proof.
  repeat split. intros [e He]. discriminate He.
Qed.

(** C2, amended.  The generator has no error for an invalid date: on a race
    plan whose race date is present and does not parse, the Invalid Date is
    used as any other date value, nothing is thrown, and the call completes
    normally with a row list for the caller. *)
Theorem unparseable_date_completes (rt : Runtime) (inputs : PlanInputs)
    (s : string) :
  planType inputs = race ->
  raceDate inputs = Some s -> JS.truthy s = true ->
  date_parse rt s = InvalidDate ->
  raceDate_of rt inputs = InvalidDate
  /\ (forall e, generatePlan rt inputs <> Throw e)
  /\ exists rows, generatePlan rt inputs = Normal rows.
Proof.
  intros _ Hs Ht Hd.
  destruct (generatePlan_normal rt inputs) as [rows Hrows].
  repeat split.
  - unfold raceDate_of. now rewrite Hs, Ht.
  - intros e. rewrite Hrows. discriminate.
  - now exists rows.
Qed.

Lemma unparseable_date_completes_witness :
  raceDate_of june2 unparseable_race = InvalidDate
  /\ (forall e, generatePlan june2 unparseable_race <> Throw e)
  /\ exists rows, generatePlan june2 unparseable_race = Normal rows.
Proof.
  apply (unparseable_date_completes june2 unparseable_race "not-a-date");
    reflexivity.
Defined.

(** C10. On a race plan whose race date is present and does not parse, the
    week count is NaN, the loop test fails at once and the generator returns
    the empty row list; no error is raised. *)
Theorem unparseable_date_gives_empty_plan (rt : Runtime)
    (inputs : PlanInputs) (s : string) :
  planType inputs = race ->
  raceDate inputs = Some s -> JS.truthy s = true ->
  date_parse rt s = InvalidDate ->
  totalWeeks rt inputs = NaN
  /\ JS.lt (Num 0) (totalWeeks rt inputs) = false
  /\ generatePlan rt inputs = Normal [].
Proof.
  intros Hrace Hs Ht Hd.
  assert (Hw : totalWeeks rt inputs = NaN).
  { unfold totalWeeks, raceDate_of. now rewrite Hrace, Hs, Ht, Hd. }
  rewrite Hw. repeat split. now apply generatePlan_NaN.
Qed.

Lemma unparseable_date_gives_empty_plan_witness :
  generatePlan june2 unparseable_race = Normal [].
Proof.
  apply (unparseable_date_gives_empty_plan june2 unparseable_race
           "not-a-date"); reflexivity.
Defined.

(** ** The floor of four weeks *)

(** C9, at the input that breaks it: with a race date that does not parse
    the week count is NaN, which is not at least 4, and the plan has no
    week and no row. *)
Theorem week_count_floor_missed :
  totalWeeks june2 unparseable_race = NaN
  /\ JS.ge (totalWeeks june2 unparseable_race) (Num 4) = false
  /\ generatePlan june2 unparseable_race = Normal [].
Proof. repeat split. Qed.

(** ** Picking rows out of a week of the rule table *)

Section WeekRows.
Variables (rt : Runtime) (inputs : PlanInputs) (n w : Z).

Ltac pick_rows :=
  unfold week_rows, rows_when, has_session, is_long_run, rule_long_run,
    rule_quality, long_run_session, row_at;
  destruct (courseProfile inputs);
  repeat match goal with
    | |- context [if ?b then _ else _] => destruct b
    end;
  reflexivity.

Lemma week_rows_long_run :
  filter is_long_run (week_rows rt inputs n w)
  = [row_at rt (now rt + w * 7 + 6) (rule_long_run inputs w)].
Proof. pick_rows. Qed.

Lemma week_rows_vo2 :
  filter (has_session vo2max_session) (week_rows rt inputs n w)
  = rows_when (rule_vo2 w) (row_at rt (now rt + w * 7 + 4) vo2max_session).
Proof. pick_rows. Qed.

Lemma week_rows_hwi :
  filter (has_session hwi_session) (week_rows rt inputs n w)
  = rows_when (rule_heat inputs n w)
      (row_at rt (now rt + w * 7 + 1) hwi_session).
Proof. pick_rows. Qed.

Lemma week_rows_additional :
  filter (has_session additional_vo2_session) (week_rows rt inputs n w)
  = rows_when (rule_extra inputs w)
      (row_at rt (now rt + w * 7 + 5) additional_vo2_session).
Proof. pick_rows. Qed.
End WeekRows.

Section Wednesday.
Variables (rt : Runtime) (inputs : PlanInputs) (n : Z).
Hypothesis Hn : totalWeeks rt inputs = Num n.
Hypothesis Hrt : plan_days_reparse rt inputs.

Lemma on_day_in_week (w d : Z) (r : PlanRow) :
  now rt + w * 7 <= d < now rt + w * 7 + 7 ->
  on_day rt d r = in_week rt w r && on_day rt d r.
Proof.
  intros Hd. unfold on_day, in_week. destruct (row_day rt r) as [|d']; auto.
  destruct (Z.eqb_spec d' d) as [->|]; [|now rewrite andb_false_r].
  destruct (Z.leb_spec (now rt + w * 7) d), (Z.ltb_spec d (now rt + w * 7 + 7));
    (reflexivity || lia).
Qed.

Lemma week_rows_wednesday (w : Z) :
  0 <= w < n ->
  filter (on_day rt (now rt + w * 7 + 2)) (week_rows rt inputs n w)
  = [row_at rt (now rt + w * 7 + 2) (rule_quality inputs w)].
Proof.
  intros Hw. unfold week_rows, rows_when.
  repeat match goal with
    | |- context [if ?b then _ else _] => destruct b
    end;
    cbn [app filter]; unfold on_day;
    rewrite !(row_at_day rt inputs n Hn Hrt) by (exact Hw || lia);
    repeat match goal with
      | |- context [?a =? ?b] => destruct (Z.eqb_spec a b); try lia
      end;
    reflexivity.
Qed.

Lemma plan_rows_wednesday (rows : list PlanRow) (w : Z) :
  generatePlan rt inputs = Normal rows -> 0 <= w < n ->
  filter (on_day rt (now rt + w * 7 + 2)) rows
  = [row_at rt (now rt + w * 7 + 2) (rule_quality inputs w)].
Proof.
  intros Hrows Hw.
  assert (Hd : now rt + w * 7 <= now rt + w * 7 + 2 < now rt + w * 7 + 7)
    by lia.
  rewrite (filter_ext _ _ (fun r => on_day_in_week w _ r Hd)).
  now apply (plan_rows_select_one rt inputs n Hn Hrt rows Hrows),
    week_rows_wednesday.
Qed.
End Wednesday.

(** The two ways the generator ends: no week at all when the week count is
    NaN, or the weeks [0 .. n-1] of a plan of [n >= 4] weeks. *)
Lemma plan_cases (rt : Runtime) (inputs : PlanInputs) :
  (totalWeeks rt inputs = NaN /\ generatePlan rt inputs = Normal [])
  \/ (exists n rows,
        totalWeeks rt inputs = Num n /\ 4 <= n /\
        generatePlan rt inputs = Normal rows).
Proof.
  destruct (totalWeeks rt inputs) as [|n] eqn:Hn.
  - left. split; [reflexivity|now apply generatePlan_NaN].
  - right. destruct (generatePlan_normal rt inputs) as [rows Hrows].
    exists n, rows. repeat split; [|exact Hrows].
    now apply (totalWeeks_at_least_4 rt inputs).
Qed.

Lemma no_plan_week_NaN (rt : Runtime) (inputs : PlanInputs) (w : Z) :
  totalWeeks rt inputs = NaN -> ~ plan_week rt inputs w.
Proof. unfold plan_week. intros -> [_ H]. discriminate H. Qed.

Lemma rule_vo2_spec (w : Z) : rule_vo2 w = true <-> w mod 4 <> 3.
Proof.
  unfold rule_vo2. destruct (Z.eqb_spec (w mod 4) 3); simpl; split;
    (congruence || auto).
Qed.

(** ** VO2 intervals *)

(** C3. In every week [w] of the plan: when [w mod 4 = 3] no row of that
    week carries the VO2max interval session; otherwise exactly one does,
    and it is dated on the Friday, four days after the week's start. *)
Theorem vo2_intervals_skip_deload_weeks (rt : Runtime)
    (inputs : PlanInputs) :
  plan_days_reparse rt inputs ->
  exists rows,
    generatePlan rt inputs = Normal rows /\
    forall w, plan_week rt inputs w ->
      let vo2_of_week :=
        filter (fun r => in_week rt w r && has_session vo2max_session r)
          rows in
      (w mod 4 = 3 -> vo2_of_week = [])
      /\ (w mod 4 <> 3 ->
          vo2_of_week = [{| date := date_format rt (now rt + w * 7 + 4);
                            session := "VO₂max 4×4 min" |}]).
Proof.
  intros Hrt.
  destruct (plan_cases rt inputs) as [[Hn Hrows]|(n & rows & Hn & _ & Hrows)];
    [exists []|exists rows]; (split; [exact Hrows|]); intros w Hw.
  - now apply no_plan_week_NaN in Hw.
  - apply (plan_week_iff rt inputs n w Hn) in Hw.
    pose proof (rule_vo2_spec w) as Hv. cbv zeta. split; intros Hmod.
    + apply (plan_rows_select_none rt inputs n Hn Hrt rows Hrows); [exact Hw|].
      rewrite week_rows_vo2. destruct (rule_vo2 w); [|reflexivity].
      now destruct (proj1 Hv eq_refl).
    + apply (plan_rows_select_one rt inputs n Hn Hrt rows Hrows); [exact Hw|].
      rewrite week_rows_vo2. now rewrite (proj2 Hv Hmod).
Qed.

(** ** Heat acclimation *)

Lemma heat_rows_only_by_rule (rt : Runtime) (inputs : PlanInputs) (n w : Z)
    (r : PlanRow) :
  In r (week_rows rt inputs n w) -> has_session hwi_session r = true ->
  rule_heat inputs n w = true /\
  r = row_at rt (now rt + w * 7 + 1) hwi_session.
Proof.
  intros Hin Hs.
  assert (Hf : In r (filter (has_session hwi_session)
                       (week_rows rt inputs n w)))
    by (apply filter_In; auto).
  rewrite week_rows_hwi in Hf.
  destruct (rule_heat inputs n w); simpl in Hf; [|contradiction].
  destruct Hf as [<-|[]]. auto.
Qed.

(** C4. Heat-acclimation rows sit on the Tuesday, one day after the start
    of a week of the plan.  In a race plan of [n] weeks with the monoblock
    option the weeks that have one are exactly those with [w >= n - 2]; with
    the biphasic option exactly those with [w < 2] or [w >= n - 2].  With
    no heat block, or in a plan that is not a race plan, no row of the plan
    is a heat-acclimation row. *)
Theorem heat_block_placement (rt : Runtime) (inputs : PlanInputs) :
  plan_days_reparse rt inputs ->
  exists rows,
    generatePlan rt inputs = Normal rows
    /\ (forall r,
          In r rows -> has_session hwi_session r = true ->
          exists w, plan_week rt inputs w /\
                    r = {| date := date_format rt (now rt + w * 7 + 1);
                           session := "HWI 19 min @ 40°C" |})
    /\ (forall n w,
          totalWeeks rt inputs = Num n -> plan_week rt inputs w ->
          let heat_of_week :=
            filter (fun r => in_week rt w r && has_session hwi_session r)
              rows in
          let tuesday :=
            {| date := date_format rt (now rt + w * 7 + 1);
               session := "HWI 19 min @ 40°C" |} in
          (planType inputs = race -> heatBlock inputs = monoblock ->
             (n - 2 <= w -> heat_of_week = [tuesday])
             /\ (w < n - 2 -> heat_of_week = []))
          /\ (planType inputs = race -> heatBlock inputs = biphasic ->
                (w < 2 \/ n - 2 <= w -> heat_of_week = [tuesday])
                /\ (2 <= w < n - 2 -> heat_of_week = [])))
    /\ (heatBlock inputs = none \/ planType inputs <> race ->
        forall r, In r rows -> has_session hwi_session r = false).
Proof.
  intros Hrt.
  destruct (plan_cases rt inputs) as [[Hn Hrows]|(n & rows & Hn & _ & Hrows)];
    [exists []|exists rows]; (split; [exact Hrows|]).
  - split; [intros r []|split; [|intros _ r []]].
    intros n w Hnum. congruence.
  - split; [|split].
    + intros r Hin Hs.
      apply (plan_rows_in rt inputs n Hn rows Hrows) in Hin
        as (w & Hw & Hin).
      exists w. split; [now apply (plan_week_iff rt inputs n w Hn)|].
      now apply (heat_rows_only_by_rule rt inputs n w).
    + intros n' w Hn' Hw. rewrite Hn in Hn'. injection Hn' as <-.
      apply (plan_week_iff rt inputs n w Hn) in Hw. cbv zeta.
      assert (Hyes : rule_heat inputs n w = true ->
                filter (fun r => in_week rt w r && has_session hwi_session r)
                  rows = [row_at rt (now rt + w * 7 + 1) hwi_session]).
      { intros Hr.
        apply (plan_rows_select_one rt inputs n Hn Hrt rows Hrows);
          [exact Hw|].
        now rewrite week_rows_hwi, Hr. }
      assert (Hno : rule_heat inputs n w = false ->
                filter (fun r => in_week rt w r && has_session hwi_session r)
                  rows = []).
      { intros Hr.
        apply (plan_rows_select_none rt inputs n Hn Hrt rows Hrows);
          [exact Hw|].
        now rewrite week_rows_hwi, Hr. }
      unfold rule_heat in Hyes, Hno.
      split; intros Hrace Hheat; rewrite Hrace, Hheat in Hyes, Hno;
        split; intros Hcond; (apply Hyes || apply Hno);
        destruct (Z.leb_spec (n - 2) w), (Z.ltb_spec w 2);
        (reflexivity || lia).
    + intros Hoff r Hin.
      apply (plan_rows_in rt inputs n Hn rows Hrows) in Hin
        as (w & Hw & Hin).
      destruct (has_session hwi_session r) eqn:Hs; [|reflexivity].
      destruct (heat_rows_only_by_rule rt inputs n w r Hin Hs) as [Hrule _].
      unfold rule_heat in Hrule.
      destruct Hoff as [Hnone|Hnot].
      * rewrite Hnone in Hrule. now destruct (planType inputs).
      * destruct (planType inputs); congruence.
Qed.

(** ** The extra session of maintenance-plus *)

Lemma rule_extra_spec (inputs : PlanInputs) (w : Z) :
  rule_extra inputs w = true <->
  planType inputs = maintenance_plus /\ w mod 2 = 1 /\ w mod 4 <> 3.
Proof.
  unfold rule_extra.
  destruct (planType inputs); try (split; [discriminate|now intros [? _]]).
  destruct (Z.eqb_spec (w mod 2) 1), (Z.eqb_spec (w mod 4) 3); simpl;
    split; (tauto || discriminate || auto).
Qed.

(** C5. The extra VO2 session appears in week [w] exactly when the plan is a
    maintenance-plus plan, [w] is odd and [w mod 4] is not 3; it is then the
    one such row of the week, dated on the Saturday, five days after the
    week's start.  In a maintenance or a race plan no row of the plan is an
    extra VO2 session. *)
Theorem extra_vo2_on_odd_weeks (rt : Runtime) (inputs : PlanInputs) :
  plan_days_reparse rt inputs ->
  exists rows,
    generatePlan rt inputs = Normal rows
    /\ (forall w, plan_week rt inputs w ->
          let extra_of_week :=
            filter (fun r => in_week rt w r &&
                             has_session additional_vo2_session r) rows in
          let odd_non_deload :=
            planType inputs = maintenance_plus /\
            w mod 2 = 1 /\ w mod 4 <> 3 in
          (odd_non_deload ->
             extra_of_week
             = [{| date := date_format rt (now rt + w * 7 + 5);
                   session := "Additional VO₂ 4×4 min" |}])
          /\ (~ odd_non_deload -> extra_of_week = []))
    /\ (planType inputs = maintenance \/ planType inputs = race ->
        forall r, In r rows -> has_session additional_vo2_session r = false).
Proof.
  intros Hrt.
  destruct (plan_cases rt inputs) as [[Hn Hrows]|(n & rows & Hn & _ & Hrows)];
    [exists []|exists rows]; (split; [exact Hrows|]).
  - split; [|intros _ r []].
    intros w Hw. now apply no_plan_week_NaN in Hw.
  - split.
    + intros w Hw. apply (plan_week_iff rt inputs n w Hn) in Hw. cbv zeta.
      pose proof (rule_extra_spec inputs w) as He.
      split; intros Hcond.
      * apply (plan_rows_select_one rt inputs n Hn Hrt rows Hrows);
          [exact Hw|].
        now rewrite week_rows_additional, (proj2 He Hcond).
      * apply (plan_rows_select_none rt inputs n Hn Hrt rows Hrows);
          [exact Hw|].
        rewrite week_rows_additional.
        destruct (rule_extra inputs w); [|reflexivity].
        now destruct Hcond; apply He.
    + intros Hpt r Hin.
      apply (plan_rows_in rt inputs n Hn rows Hrows) in Hin
        as (w & Hw & Hin).
      destruct (has_session additional_vo2_session r) eqn:Hs; [|reflexivity].
      assert (Hf : In r (filter (has_session additional_vo2_session)
                           (week_rows rt inputs n w)))
        by (apply filter_In; auto).
      rewrite week_rows_additional in Hf.
      destruct (rule_extra inputs w) eqn:Hr; [|contradiction].
      apply rule_extra_spec in Hr as [Hplus _].
      destruct Hpt; congruence.
Qed.

(** ** Chronological order *)

(** C6. The returned rows are in ascending order of the calendar day their
    [date] fields denote: any two neighbours [rows[i]] and [rows[i+1]] are
    dated on days [da <= db]. *)
Theorem rows_ascend_by_date (rt : Runtime) (inputs : PlanInputs) :
  plan_days_reparse rt inputs ->
  exists rows,
    generatePlan rt inputs = Normal rows /\
    forall (i : nat) (a b : PlanRow),
      nth_error rows i = Some a -> nth_error rows (S i) = Some b ->
      exists da db,
        row_day rt a = Valid da /\ row_day rt b = Valid db /\ da <= db.
Proof.
  intros Hrt.
  destruct (plan_cases rt inputs) as [[Hn Hrows]|(n & rows & Hn & _ & Hrows)];
    [exists []|exists rows]; (split; [exact Hrows|]); intros i a b Ha Hb.
  - destruct i; discriminate Ha.
  - exact (Sorted_adjacent (day_le rt) rows
             (plan_rows_sorted rt inputs n Hn Hrt rows Hrows) i a b Ha Hb).
Qed.

(** ** The long run *)

(** C7. Every week [w] of the plan has exactly one long-run row; it is dated
    on the Sunday, six days after the week's start [today + 7 * w], and its
    duration is [seed + 10 * w] minutes, with [seed] 90 for a race plan and
    60 otherwise.  In a race plan the long run of week 0 reads
    "Long run – 90 min easy" and is dated today + 6 days.  The duration
    grows by 10 minutes from each week to the next, without taper or
    cap. *)
Theorem long_run_every_week (rt : Runtime) (inputs : PlanInputs) :
  plan_days_reparse rt inputs ->
  let seed := match planType inputs with race => 90 | _ => 60 end in
  exists rows,
    generatePlan rt inputs = Normal rows
    /\ (forall w, plan_week rt inputs w ->
          filter (fun r => in_week rt w r && is_long_run r) rows
          = [{| date := date_format rt (now rt + w * 7 + 6);
                session := long_run_session (seed + 10 * w) |}])
    /\ (planType inputs = race -> plan_week rt inputs 0 ->
        filter (fun r => in_week rt 0 r && is_long_run r) rows
        = [{| date := date_format rt (now rt + 6);
              session := "Long run – 90 min easy" |}])
    /\ (forall w, longSeed inputs + w * 10 = seed + 10 * w)
    /\ (forall w, plan_week rt inputs w -> plan_week rt inputs (w + 1) ->
        exists m m',
          In {| date := date_format rt (now rt + w * 7 + 6);
                session := long_run_session m |} rows
          /\ In {| date := date_format rt (now rt + (w + 1) * 7 + 6);
                   session := long_run_session m' |} rows
          /\ m' = m + 10).
Proof.
  intros Hrt seed.
  assert (Hall : forall n rows w,
             totalWeeks rt inputs = Num n ->
             generatePlan rt inputs = Normal rows -> plan_week rt inputs w ->
             filter (fun r => in_week rt w r && is_long_run r) rows
             = [row_at rt (now rt + w * 7 + 6)
                  (long_run_session (seed + 10 * w))]).
  { intros n rows w Hn Hrows Hw.
    apply (plan_week_iff rt inputs n w Hn) in Hw.
    apply (plan_rows_select_one rt inputs n Hn Hrt rows Hrows); [exact Hw|].
    apply week_rows_long_run. }
  assert (Hseed : forall w, longSeed inputs + w * 10 = seed + 10 * w).
  { intros w. unfold longSeed, seed.
    destruct (planType inputs); cbv [strict_eq PlanType_eq]; lia. }
  destruct (plan_cases rt inputs) as [[Hn Hrows]|(n & rows & Hn & _ & Hrows)];
    [exists []|exists rows]; (split; [exact Hrows|]).
  - repeat split; try exact Hseed.
    + intros w Hw. now apply no_plan_week_NaN in Hw.
    + intros _ Hw. now apply no_plan_week_NaN in Hw.
    + intros w Hw. now apply no_plan_week_NaN in Hw.
  - repeat split; try exact Hseed.
    + intros w Hw. now apply (Hall n).
    + intros Hrace Hw. rewrite (Hall n rows 0 Hn Hrows Hw).
      unfold seed. rewrite Hrace.
      replace (now rt + 0 * 7 + 6) with (now rt + 6) by lia. reflexivity.
    + intros w Hw Hw'. exists (seed + 10 * w), (seed + 10 * (w + 1)).
      repeat split; [| |lia].
      * assert (Hin : In (row_at rt (now rt + w * 7 + 6)
                            (long_run_session (seed + 10 * w)))
                        (filter (fun r => in_week rt w r && is_long_run r)
                           rows))
          by (rewrite (Hall n rows w Hn Hrows Hw); now left).
        now apply filter_In in Hin.
      * assert (Hin : In (row_at rt (now rt + (w + 1) * 7 + 6)
                            (long_run_session (seed + 10 * (w + 1))))
                        (filter
                           (fun r => in_week rt (w + 1) r && is_long_run r)
                           rows))
          by (rewrite (Hall n rows (w + 1) Hn Hrows Hw'); now left).
        now apply filter_In in Hin.
Qed.

(** ** The midweek quality session *)

(** C8. Every week [w] of the plan has exactly one row dated on the
    Wednesday, two days after the week's start: the midweek quality row.
    On a flat course it is the threshold session in every week; on any
    other course it is the uphill-tempo session when [w] is even and the
    threshold session when [w] is odd. *)
Theorem midweek_quality_every_week (rt : Runtime) (inputs : PlanInputs) :
  plan_days_reparse rt inputs ->
  exists rows,
    generatePlan rt inputs = Normal rows /\
    forall w, plan_week rt inputs w ->
      let wednesday := now rt + w * 7 + 2 in
      let of_wednesday := filter (on_day rt wednesday) rows in
      let row s := [{| date := date_format rt wednesday; session := s |}] in
      (courseProfile inputs = flat ->
       of_wednesday = row "Threshold 20 min continuous")
      /\ (courseProfile inputs <> flat ->
          (w mod 2 = 0 -> of_wednesday = row "Uphill-Tempo 6×5 min")
          /\ (w mod 2 = 1 -> of_wednesday = row "Threshold 20 min continuous")).
Proof.
  intros Hrt.
  destruct (plan_cases rt inputs) as [[Hn Hrows]|(n & rows & Hn & _ & Hrows)];
    [exists []|exists rows]; (split; [exact Hrows|]); intros w Hw.
  - now apply no_plan_week_NaN in Hw.
  - apply (plan_week_iff rt inputs n w Hn) in Hw. cbv zeta.
    rewrite (plan_rows_wednesday rt inputs n Hn Hrt rows w Hrows Hw).
    unfold rule_quality, row_at. split.
    + now intros ->.
    + intros Hflat. split; intros Hpar; rewrite Hpar;
        now destruct (courseProfile inputs).
Qed.

(** * The properties on the sample runtime

    Each of the theorems above that assumes [plan_days_reparse] is run here
    on the Gregorian runtime, with today Monday 2 June 2025. *)

(** The scenario of the specification, run in full: four weeks, the
    week-0 long run of 90 minutes on today + 6 days, the threshold session
    every Wednesday, no VO2 row in week 3. *)
Example four_week_race_plan :
  totalWeeks june2 four_week_race = Num 4
  /\ generatePlan june2 four_week_race
     = Normal
         [ {| date := "Wed, Jun 4 2025";
              session := "Threshold 20 min continuous" |};
           {| date := "Fri, Jun 6 2025"; session := "VO₂max 4×4 min" |};
           {| date := "Sun, Jun 8 2025";
              session := "Long run – 90 min easy" |};
           {| date := "Wed, Jun 11 2025";
              session := "Threshold 20 min continuous" |};
           {| date := "Fri, Jun 13 2025"; session := "VO₂max 4×4 min" |};
           {| date := "Sun, Jun 15 2025";
              session := "Long run – 100 min easy" |};
           {| date := "Wed, Jun 18 2025";
              session := "Threshold 20 min continuous" |};
           {| date := "Fri, Jun 20 2025"; session := "VO₂max 4×4 min" |};
           {| date := "Sun, Jun 22 2025";
              session := "Long run – 110 min easy" |};
           {| date := "Wed, Jun 25 2025";
              session := "Threshold 20 min continuous" |};
           {| date := "Sun, Jun 29 2025";
              session := "Long run – 120 min easy" |} ].
Proof. split; reflexivity. Qed.

Lemma vo2_intervals_skip_deload_weeks_witness :
  plan_days_reparse june2 four_week_race
  /\ exists rows,
       generatePlan june2 four_week_race = Normal rows
       /\ filter (fun r => in_week june2 3 r && has_session vo2max_session r)
            rows = []
       /\ filter (fun r => in_week june2 0 r && has_session vo2max_session r)
            rows
          = [{| date := "Fri, Jun 6 2025"; session := "VO₂max 4×4 min" |}].
Proof.
  assert (H : plan_days_reparse june2 four_week_race)
    by (apply (reparses_from_sound _ _ 4); reflexivity).
  split; [exact H|].
  destruct (vo2_intervals_skip_deload_weeks june2 four_week_race H)
    as (rows & Hrows & Hw).
  exists rows. split; [exact Hrows|]. split.
  - destruct (Hw 3) as [H3 _]; [split; [lia|reflexivity]|].
    exact (H3 eq_refl).
  - destruct (Hw 0) as [_ H0]; [split; [lia|reflexivity]|].
    apply H0. discriminate.
Defined.

Lemma heat_block_placement_witness :
  plan_days_reparse june2 (six_week_race biphasic)
  /\ exists rows,
       generatePlan june2 (six_week_race biphasic) = Normal rows
       /\ filter (fun r => in_week june2 1 r && has_session hwi_session r)
            rows
          = [{| date := "Tue, Jun 10 2025"; session := "HWI 19 min @ 40°C" |}]
       /\ filter (fun r => in_week june2 2 r && has_session hwi_session r)
            rows = []
       /\ filter (fun r => in_week june2 4 r && has_session hwi_session r)
            rows
          = [{| date := "Tue, Jul 1 2025"; session := "HWI 19 min @ 40°C" |}].
Proof.
  assert (H : plan_days_reparse june2 (six_week_race biphasic))
    by (apply (reparses_from_sound _ _ 6); reflexivity).
  split; [exact H|].
  destruct (heat_block_placement june2 (six_week_race biphasic) H)
    as (rows & Hrows & _ & Hweeks & _).
  exists rows. split; [exact Hrows|].
  assert (Hw : forall w, 0 <= w < 6 ->
                         plan_week june2 (six_week_race biphasic) w).
  { intros w Hw. split; [lia|].
    change (JS.lt (Num w) (Num 6) = true). apply Z.ltb_lt. lia. }
  repeat split.
  - destruct (Hweeks 6 1 eq_refl (Hw 1 ltac:(lia))) as [_ Hbi].
    apply (Hbi eq_refl eq_refl). left. lia.
  - destruct (Hweeks 6 2 eq_refl (Hw 2 ltac:(lia))) as [_ Hbi].
    apply (Hbi eq_refl eq_refl). lia.
  - destruct (Hweeks 6 4 eq_refl (Hw 4 ltac:(lia))) as [_ Hbi].
    apply (Hbi eq_refl eq_refl). right. lia.
Defined.

Lemma extra_vo2_on_odd_weeks_witness :
  plan_days_reparse june2 hilly_maintenance_plus
  /\ exists rows,
       generatePlan june2 hilly_maintenance_plus = Normal rows
       /\ filter (fun r => in_week june2 1 r &&
                           has_session additional_vo2_session r) rows
          = [{| date := "Sat, Jun 14 2025";
                session := "Additional VO₂ 4×4 min" |}]
       /\ filter (fun r => in_week june2 2 r &&
                           has_session additional_vo2_session r) rows = []
       /\ filter (fun r => in_week june2 3 r &&
                           has_session additional_vo2_session r) rows = [].
Proof.
  assert (H : plan_days_reparse june2 hilly_maintenance_plus)
    by (apply (reparses_from_sound _ _ 12); reflexivity).
  split; [exact H|].
  destruct (extra_vo2_on_odd_weeks june2 hilly_maintenance_plus H)
    as (rows & Hrows & Hweeks & _).
  exists rows. split; [exact Hrows|].
  assert (Hw : forall w, 0 <= w < 12 ->
                         plan_week june2 hilly_maintenance_plus w).
  { intros w Hw. split; [lia|].
    change (JS.lt (Num w) (Num 12) = true). apply Z.ltb_lt. lia. }
  repeat split.
  - apply (Hweeks 1 (Hw 1 ltac:(lia))). repeat split. discriminate.
  - apply (Hweeks 2 (Hw 2 ltac:(lia))). intros (_ & Hodd & _). discriminate.
  - apply (Hweeks 3 (Hw 3 ltac:(lia))). intros (_ & _ & Hdeload).
    now apply Hdeload.
Defined.

Lemma rows_ascend_by_date_witness :
  plan_days_reparse june2 hilly_maintenance_plus
  /\ exists rows,
       generatePlan june2 hilly_maintenance_plus = Normal rows /\
       forall (i : nat) (a b : PlanRow),
         nth_error rows i = Some a -> nth_error rows (S i) = Some b ->
         exists da db,
           row_day june2 a = Valid da /\ row_day june2 b = Valid db /\
           da <= db.
Proof.
  assert (H : plan_days_reparse june2 hilly_maintenance_plus)
    by (apply (reparses_from_sound _ _ 12); reflexivity).
  split; [exact H|].
  exact (rows_ascend_by_date june2 hilly_maintenance_plus H).
Defined.

Lemma long_run_every_week_witness :
  plan_days_reparse june2 four_week_race
  /\ exists rows,
       generatePlan june2 four_week_race = Normal rows
       /\ filter (fun r => in_week june2 0 r && is_long_run r) rows
          = [{| date := "Sun, Jun 8 2025";
                session := "Long run – 90 min easy" |}]
       /\ filter (fun r => in_week june2 3 r && is_long_run r) rows
          = [{| date := "Sun, Jun 29 2025";
                session := "Long run – 120 min easy" |}].
Proof.
  assert (H : plan_days_reparse june2 four_week_race)
    by (apply (reparses_from_sound _ _ 4); reflexivity).
  split; [exact H|].
  destruct (long_run_every_week june2 four_week_race H)
    as (rows & Hrows & Hweeks & Hzero & _).
  exists rows. split; [exact Hrows|]. split.
  - apply (Hzero eq_refl). split; [lia|reflexivity].
  - apply (Hweeks 3). split; [lia|reflexivity].
Defined.

Lemma midweek_quality_every_week_witness :
  plan_days_reparse june2 (six_week_race none)
  /\ exists rows,
       generatePlan june2 (six_week_race none) = Normal rows
       /\ filter (on_day june2 (now june2 + 2)) rows
          = [{| date := "Wed, Jun 4 2025";
                session := "Uphill-Tempo 6×5 min" |}]
       /\ filter (on_day june2 (now june2 + 9)) rows
          = [{| date := "Wed, Jun 11 2025";
                session := "Threshold 20 min continuous" |}].
Proof.
  assert (H : plan_days_reparse june2 (six_week_race none))
    by (apply (reparses_from_sound _ _ 6); reflexivity).
  split; [exact H|].
  destruct (midweek_quality_every_week june2 (six_week_race none) H)
    as (rows & Hrows & Hweeks).
  exists rows. split; [exact Hrows|]. split.
  - destruct (Hweeks 0) as [_ Hother]; [split; [lia|reflexivity]|].
    apply Hother; [discriminate|reflexivity].
  - destruct (Hweeks 1) as [_ Hother]; [split; [lia|reflexivity]|].
    apply Hother; [discriminate|reflexivity].
Defined.


(** * Further properties of the generator *)

(** ** Sorted lists with distinct keys *)

Section SortedByKey.
Context {A : Type} (key : A -> Z).

Lemma strictly_sorted_app (l1 l2 : list A) :
  StronglySorted (key_lt key) l1 -> StronglySorted (key_lt key) l2 ->
  (forall a b, In a l1 -> In b l2 -> key a < key b) ->
  StronglySorted (key_lt key) (l1 ++ l2).
Proof.
  intros H1 H2 H12. induction H1 as [|x l1 Hs IH Hx]; simpl; [exact H2|].
  constructor.
  - apply IH. intros a b Ha Hb. apply H12; [now right|exact Hb].
  - apply Forall_app. split; [exact Hx|].
    apply Forall_forall. intros b Hb. apply H12; [now left|exact Hb].
Qed.

(** A list sorted on distinct keys is the only sorted arrangement of its
    elements. *)
Lemma sorted_arrangement_unique (l l' : list A) :
  StronglySorted (key_lt key) l -> StronglySorted (key_le key) l' ->
  Permutation l l' -> l = l'.
Proof.
  intros Hl. revert l'.
  induction Hl as [|x l Hs IH Hx]; intros l' Hl' Hp.
  - now apply Permutation_nil in Hp.
  - destruct l' as [|y l'].
    + symmetry in Hp. now apply Permutation_nil in Hp.
    + inversion Hl' as [|? ? Hs' Hy]; subst.
      assert (Hxy : x = y).
      { assert (Hyin : In y (x :: l))
          by (apply (Permutation_in _ (Permutation_sym Hp)); now left).
        assert (Hxin : In x (y :: l'))
          by (apply (Permutation_in _ Hp); now left).
        destruct Hyin as [E|Hyin]; [exact E|].
        destruct Hxin as [E|Hxin]; [now symmetry|].
        rewrite Forall_forall in Hx, Hy.
        specialize (Hx y Hyin). specialize (Hy x Hxin).
        unfold key_lt, key_le in *. lia. }
      subst y. f_equal. apply IH; [exact Hs'|].
      now apply Permutation_cons_inv in Hp.
Qed.
End SortedByKey.

Lemma StronglySorted_weaken {A : Type} (R R' : A -> A -> Prop) (l : list A) :
  (forall a b, R a b -> R' a b) ->
  StronglySorted R l -> StronglySorted R' l.
Proof.
  intros HR. induction 1 as [|x l _ IH Hx]; constructor; [exact IH|].
  eapply Forall_impl; [|exact Hx]. apply HR.
Qed.

Lemma Permutation_flat_map_pointwise {A B : Type} (f g : A -> list B)
    (l : list A) :
  (forall x, In x l -> Permutation (f x) (g x)) ->
  Permutation (flat_map f l) (flat_map g l).
Proof.
  induction l as [|x l IH]; intros H; simpl; [constructor|].
  apply Permutation_app; [apply H; now left|].
  apply IH. intros y Hy. apply H. now right.
Qed.

(** ** The plan in calendar order *)

Lemma week_rows_by_day_perm (rt : Runtime) (inputs : PlanInputs) (n w : Z) :
  Permutation (week_rows rt inputs n w) (week_rows_by_day rt inputs n w).
Proof.
  unfold week_rows, week_rows_by_day. cbv zeta.
  set (lr := row_at rt (now rt + w * 7 + 6) (rule_long_run inputs w)).
  set (q := row_at rt (now rt + w * 7 + 2) (rule_quality inputs w)).
  set (V := rows_when (rule_vo2 w) _).
  set (H := rows_when (rule_heat inputs n w) _).
  set (E := rows_when (rule_extra inputs w) _).
  change ([lr; q] ++ V ++ H ++ E) with (lr :: (q :: V ++ H ++ E)).
  replace (H ++ [q] ++ V ++ E ++ [lr]) with ((H ++ q :: V ++ E) ++ [lr])
    by (rewrite <- !app_assoc; simpl; now rewrite <- !app_assoc).
  rewrite <- Permutation_cons_append. constructor.
  rewrite <- Permutation_middle. constructor.
  apply Permutation_app_swap_app.
Qed.

Section DayOrder.
Variables (rt : Runtime) (inputs : PlanInputs) (n : Z).
Hypothesis Hn : totalWeeks rt inputs = Num n.
Hypothesis Hrt : plan_days_reparse rt inputs.

Lemma day_of_row_at (w k : Z) (s : string) :
  0 <= w < n -> 0 <= k < 7 ->
  day_of rt (row_at rt (now rt + w * 7 + k) s) = now rt + w * 7 + k.
Proof.
  intros Hw Hk. unfold day_of.
  now rewrite (row_at_day rt inputs n Hn Hrt w k s Hw Hk).
Qed.

Lemma week_rows_by_day_sorted (w : Z) :
  0 <= w < n ->
  StronglySorted (key_lt (day_of rt)) (week_rows_by_day rt inputs n w).
Proof.
  intros Hw. unfold week_rows_by_day, rows_when.
  repeat match goal with
    | |- context [if ?b then _ else _] => destruct b
    end; cbn [app];
    repeat (constructor; [|repeat constructor; unfold key_lt;
                           rewrite !day_of_row_at by (exact Hw || lia);
                           lia]);
    constructor.
Qed.

Lemma week_rows_by_day_bounds (w : Z) (r : PlanRow) :
  0 <= w < n -> In r (week_rows_by_day rt inputs n w) ->
  now rt + w * 7 < day_of rt r < now rt + w * 7 + 7.
Proof.
  intros Hw Hin.
  apply (Permutation_in _ (Permutation_sym
           (week_rows_by_day_perm rt inputs n w))) in Hin.
  pose proof (week_rows_days rt inputs n Hn Hrt w Hw) as Hd.
  rewrite Forall_forall in Hd. destruct (Hd r Hin) as (k & Hk & Hr).
  unfold day_of. rewrite Hr.
  assert (k <> 0); [|lia]. intros ->.
  revert Hin Hr. unfold week_rows, rows_when.
  repeat match goal with
    | |- context [if ?b then _ else _] => destruct b
    end; cbn [app In]; intros Hin Hr;
    repeat match goal with
      | H : _ \/ _ |- _ => destruct H as [H|H]
      | H : False |- _ => destruct H
      end; subst r;
    match goal with
    | H : row_day _ (row_at _ (_ + ?j) _) = _ |- _ =>
        rewrite (row_at_day rt inputs n Hn Hrt w j) in H by (exact Hw || lia);
        injection H; lia
    end.
Qed.

Lemma plan_by_day_sorted (k : nat) :
  forall a, 0 <= a -> a + Z.of_nat k <= n ->
    StronglySorted (key_lt (day_of rt))
      (flat_map (week_rows_by_day rt inputs n) (week_range a k)).
Proof.
  induction k as [|k IH]; intros a Ha Hk; [constructor|].
  rewrite week_range_S. cbn [flat_map].
  apply strictly_sorted_app.
  - apply week_rows_by_day_sorted. lia.
  - apply IH; lia.
  - intros x y Hx Hy. unfold key_lt.
    apply in_flat_map in Hy as (w & Hw & Hy). apply in_week_range in Hw.
    apply week_rows_by_day_bounds in Hx; [|lia].
    apply week_rows_by_day_bounds in Hy; [|lia]. lia.
Qed.

Lemma day_le_key_le (a b : PlanRow) :
  day_le rt a b -> key_le (day_of rt) a b.
Proof.
  intros (da & db & Ha & Hb & Hle). unfold key_le, day_of.
  now rewrite Ha, Hb.
Qed.

Lemma day_le_trans (a b c : PlanRow) :
  day_le rt a b -> day_le rt b c -> day_le rt a c.
Proof.
  intros (da & db & Ha & Hb & Hab) (db' & dc & Hb' & Hc & Hbc).
  rewrite Hb in Hb'. injection Hb' as <-.
  exists da, dc. repeat split; auto; lia.
Qed.

Variable rows : list PlanRow.
Hypothesis Hrows : generatePlan rt inputs = Normal rows.

Lemma plan_rows_by_day :
  rows = flat_map (week_rows_by_day rt inputs n) (week_range 0 (Z.to_nat n)).
Proof.
  pose proof (totalWeeks_at_least_4 rt inputs n Hn) as Hfour.
  symmetry. apply (sorted_arrangement_unique (day_of rt)).
  - apply plan_by_day_sorted; lia.
  - apply (StronglySorted_weaken (day_le rt)); [exact day_le_key_le|].
    apply Sorted_StronglySorted; [exact day_le_trans|].
    exact (plan_rows_sorted rt inputs n Hn Hrt rows Hrows).
  - rewrite (plan_rows_perm rt inputs n Hn rows Hrows).
    symmetry. apply Permutation_flat_map_pointwise.
    intros w _. apply week_rows_by_day_perm.
Qed.
End DayOrder.

(** X1. The whole output.  When the week count is the number [n], the
    generator returns the rows week after week, and inside each week in the
    order of their days: heat block, midweek quality, VO2 intervals,
    maintenance-plus extra, long run. *)
Theorem plan_in_calendar_order (rt : Runtime) (inputs : PlanInputs) (n : Z) :
  plan_days_reparse rt inputs -> totalWeeks rt inputs = Num n ->
  generatePlan rt inputs
  = Normal (flat_map (week_rows_by_day rt inputs n)
              (week_range 0 (Z.to_nat n))).
Proof.
  intros Hrt Hn. destruct (generatePlan_normal rt inputs) as [rows Hrows].
  rewrite Hrows. f_equal.
  exact (plan_rows_by_day rt inputs n Hn Hrt rows Hrows).
Qed.

Lemma plan_in_calendar_order_witness :
  plan_days_reparse june2 (six_week_race monoblock)
  /\ totalWeeks june2 (six_week_race monoblock) = Num 6
  /\ generatePlan june2 (six_week_race monoblock)
     = Normal (flat_map (week_rows_by_day june2 (six_week_race monoblock) 6)
                 [0; 1; 2; 3; 4; 5]).
Proof.
  assert (H : plan_days_reparse june2 (six_week_race monoblock))
    by (apply (reparses_from_sound _ _ 6); reflexivity).
  split; [exact H|]. split; [reflexivity|].
  exact (plan_in_calendar_order june2 (six_week_race monoblock) 6 H eq_refl).
Defined.

Lemma one_per_key {A : Type} (key : A -> Z) (d : Z) (l : list A) :
  StronglySorted (key_lt key) l ->
  (List.length (filter (fun x => (key x =? d)%Z) l) <= 1)%nat.
Proof.
  induction 1 as [|x l Hs IH Hx]; simpl; [lia|].
  destruct (Z.eqb_spec (key x) d) as [E|_]; [|exact IH].
  rewrite filter_none; [simpl; lia|].
  eapply Forall_impl; [|exact Hx].
  intros y Hy. unfold key_lt in Hy. apply Z.eqb_neq. lia.
Qed.

(** X2. The dates of the returned rows strictly increase: neighbours are
    dated on days [da < db], and no calendar day holds more than one row. *)
Theorem rows_strictly_ascend (rt : Runtime) (inputs : PlanInputs) :
  plan_days_reparse rt inputs ->
  exists rows,
    generatePlan rt inputs = Normal rows
    /\ (forall (i : nat) (a b : PlanRow),
          nth_error rows i = Some a -> nth_error rows (S i) = Some b ->
          exists da db,
            row_day rt a = Valid da /\ row_day rt b = Valid db /\ da < db)
    /\ (forall d, (List.length (filter (on_day rt d) rows) <= 1)%nat).
Proof.
  intros Hrt.
  destruct (plan_cases rt inputs)
    as [[Hn Hrows]|(n & rows & Hn & Hfour & Hrows)].
  - exists []. split; [exact Hrows|]. split; [|intros d; simpl; lia].
    intros [|i] a b Ha; discriminate Ha.
  - exists rows. split; [exact Hrows|].
    pose proof (plan_rows_dated rt inputs n Hn Hrt rows Hrows) as Hdated.
    assert (Hs : StronglySorted (key_lt (day_of rt)) rows).
    { rewrite (plan_rows_by_day rt inputs n Hn Hrt rows Hrows).
      apply (plan_by_day_sorted rt inputs n Hn Hrt); lia. }
    rewrite Forall_forall in Hdated. split.
    + intros i a b Ha Hb.
      pose proof (Sorted_adjacent _ rows (StronglySorted_Sorted Hs) i a b
                    Ha Hb) as Hlt.
      destruct (Hdated a (nth_error_In _ _ Ha)) as [da Hda].
      destruct (Hdated b (nth_error_In _ _ Hb)) as [db Hdb].
      exists da, db. repeat split; auto.
      unfold key_lt, day_of in Hlt. now rewrite Hda, Hdb in Hlt.
    + intros d.
      rewrite (filter_ext_in (on_day rt d) (fun r => day_of rt r =? d)).
      * now apply one_per_key.
      * intros r Hr. destruct (Hdated r Hr) as [dr Hdr].
        unfold on_day, day_of. now rewrite Hdr.
Qed.

Lemma rows_strictly_ascend_witness :
  plan_days_reparse june2 hilly_maintenance_plus
  /\ exists rows,
       generatePlan june2 hilly_maintenance_plus = Normal rows
       /\ (forall (i : nat) (a b : PlanRow),
             nth_error rows i = Some a -> nth_error rows (S i) = Some b ->
             exists da db,
               row_day june2 a = Valid da /\ row_day june2 b = Valid db /\
               da < db)
       /\ (forall d, (List.length (filter (on_day june2 d) rows) <= 1)%nat).
Proof.
  assert (H : plan_days_reparse june2 hilly_maintenance_plus)
    by (apply (reparses_from_sound _ _ 12); reflexivity).
  split; [exact H|].
  exact (rows_strictly_ascend june2 hilly_maintenance_plus H).
Defined.

(** X3. Every row of a plan comes from one of the five rules of some week
    [w] of the plan, at that rule's fixed distance from the week's start:
    long run (6 days), midweek quality (2), VO2 intervals (4), heat block
    (1, race plans only), extra VO2 (5, maintenance-plus only).  No other
    session text and no other day offset ever appears. *)
Theorem rows_come_from_five_rules (rt : Runtime) (inputs : PlanInputs) :
  exists rows,
    generatePlan rt inputs = Normal rows /\
    forall r, In r rows ->
      exists w, plan_week rt inputs w /\
        let on k s :=
          r = {| date := date_format rt (now rt + w * 7 + k);
                 session := s |} in
        on 6 (long_run_session (longSeed inputs + w * 10))
        \/ on 2 threshold_session
        \/ (on 2 uphill_tempo_session /\ courseProfile inputs <> flat)
        \/ on 4 vo2max_session
        \/ (on 1 hwi_session /\ planType inputs = race)
        \/ (on 5 additional_vo2_session /\
            planType inputs = maintenance_plus).
Proof.
  destruct (plan_cases rt inputs) as [[Hn Hrows]|(n & rows & Hn & _ & Hrows)];
    [exists []|exists rows]; (split; [exact Hrows|]); intros r Hin;
    [destruct Hin|].
  apply (plan_rows_in rt inputs n Hn rows Hrows) in Hin as (w & Hw & Hin).
  exists w. split; [now apply (plan_week_iff rt inputs n w Hn)|].
  cbv zeta. unfold week_rows in Hin. rewrite <- longSeed_rule in Hin.
  unfold rows_when, rule_quality, rule_heat, rule_extra, row_at in Hin.
  destruct (planType inputs), (courseProfile inputs);
    repeat match type of Hin with
      | context [if ?b then _ else _] => destruct b
      | context [match ?b with _ => _ end] => destruct b
      end;
    cbn [app In] in Hin;
    repeat match goal with
      | H : _ \/ _ |- _ => destruct H as [H|H]
      | H : False |- _ => destruct H
      end; subst r;
    first [ now left
          | now (right; left)
          | now (right; right; left; split; [reflexivity|discriminate])
          | now (right; right; right; left)
          | now (right; right; right; right; left)
          | now (right; right; right; right; right) ].
Qed.

Section RestDays.
Variables (rt : Runtime) (inputs : PlanInputs) (n : Z).
Hypothesis Hn : totalWeeks rt inputs = Num n.
Hypothesis Hrt : plan_days_reparse rt inputs.

Lemma week_rows_rest_day (w k : Z) :
  0 <= w < n -> k = 0 \/ k = 3 ->
  filter (on_day rt (now rt + w * 7 + k)) (week_rows rt inputs n w) = [].
Proof.
  intros Hw Hk. unfold week_rows, rows_when.
  repeat match goal with
    | |- context [if ?b then _ else _] => destruct b
    end;
    cbn [app filter]; unfold on_day;
    rewrite !(row_at_day rt inputs n Hn Hrt) by (exact Hw || lia);
    repeat match goal with
      | |- context [?a =? ?b] => destruct (Z.eqb_spec a b); try lia
      end;
    reflexivity.
Qed.

Lemma plan_rows_rest_day (rows : list PlanRow) (w k : Z) :
  generatePlan rt inputs = Normal rows -> 0 <= w < n -> k = 0 \/ k = 3 ->
  filter (on_day rt (now rt + w * 7 + k)) rows = [].
Proof.
  intros Hrows Hw Hk.
  assert (Hd : now rt + w * 7 <= now rt + w * 7 + k < now rt + w * 7 + 7)
    by lia.
  rewrite (filter_ext _ _ (fun r => on_day_in_week rt w _ r Hd)).
  now apply (plan_rows_select_none rt inputs n Hn Hrt rows Hrows),
    week_rows_rest_day.
Qed.
End RestDays.

(** X4. Two days of every week of the plan stay free: no row is dated on
    the day the week starts ([today + 7 * w]) nor three days later. *)
Theorem two_rest_days_every_week (rt : Runtime) (inputs : PlanInputs) :
  plan_days_reparse rt inputs ->
  exists rows,
    generatePlan rt inputs = Normal rows /\
    forall w, plan_week rt inputs w ->
      filter (on_day rt (now rt + w * 7)) rows = []
      /\ filter (on_day rt (now rt + w * 7 + 3)) rows = [].
Proof.
  intros Hrt.
  destruct (plan_cases rt inputs) as [[Hn Hrows]|(n & rows & Hn & _ & Hrows)];
    [exists []|exists rows]; (split; [exact Hrows|]); intros w Hw.
  - now split.
  - apply (plan_week_iff rt inputs n w Hn) in Hw. split.
    + rewrite <- (Z.add_0_r (now rt + w * 7)).
      apply (plan_rows_rest_day rt inputs n Hn Hrt rows w 0 Hrows Hw).
      now left.
    + apply (plan_rows_rest_day rt inputs n Hn Hrt rows w 3 Hrows Hw).
      now right.
Qed.

Lemma two_rest_days_every_week_witness :
  plan_days_reparse june2 (six_week_race biphasic)
  /\ exists rows,
       generatePlan june2 (six_week_race biphasic) = Normal rows /\
       forall w, plan_week june2 (six_week_race biphasic) w ->
         filter (on_day june2 (now june2 + w * 7)) rows = []
         /\ filter (on_day june2 (now june2 + w * 7 + 3)) rows = [].
Proof.
  assert (H : plan_days_reparse june2 (six_week_race biphasic))
    by (apply (reparses_from_sound _ _ 6); reflexivity).
  split; [exact H|].
  exact (two_rest_days_every_week june2 (six_week_race biphasic) H).
Defined.

(** ** Counting rows *)

Lemma week_range_app (a : Z) (j k : nat) :
  week_range a (j + k) = week_range a j ++ week_range (a + Z.of_nat j) k.
Proof.
  revert a. induction j as [|j IH]; intros a.
  - simpl. now rewrite Z.add_0_r.
  - change (S j + k)%nat with (S (j + k)). rewrite !week_range_S, IH.
    simpl. do 3 f_equal. lia.
Qed.

Lemma filter_flat_map {A B : Type} (P : B -> bool) (f : A -> list B)
    (l : list A) :
  filter P (flat_map f l) = flat_map (fun x => filter P (f x)) l.
Proof.
  induction l as [|x l IH]; simpl; [reflexivity|].
  now rewrite filter_app, IH.
Qed.

Lemma length_flat_map_rows_when {A : Type} (p : A -> bool)
    (r : A -> PlanRow) (l : list A) :
  List.length (flat_map (fun x => rows_when (p x) (r x)) l)
  = List.length (filter p l).
Proof.
  induction l as [|x l IH]; simpl; [reflexivity|].
  rewrite length_app, IH. unfold rows_when. now destruct (p x).
Qed.

Lemma length_plan_rows (rt : Runtime) (inputs : PlanInputs) (n : Z)
    (l : list Z) :
  List.length (flat_map (week_rows rt inputs n) l)
  = (2 * List.length l + List.length (filter rule_vo2 l)
     + List.length (filter (rule_heat inputs n) l)
     + List.length (filter (rule_extra inputs) l))%nat.
Proof.
  induction l as [|w l IH]; simpl; [reflexivity|].
  rewrite length_app, IH. unfold week_rows, rows_when.
  destruct (rule_vo2 w), (rule_heat inputs n w), (rule_extra inputs w);
    simpl; lia.
Qed.

(** Weeks [0 .. k-1] that are not deload weeks: all but one in four. *)
Lemma vo2_weeks_count (k : nat) :
  Z.of_nat (List.length (filter rule_vo2 (week_range 0 k)))
  = Z.of_nat k - Z.of_nat k / 4.
Proof.
  induction k as [|k IH]; [reflexivity|].
  replace (S k) with (k + 1)%nat by lia.
  rewrite week_range_app, filter_app, length_app, Nat2Z.inj_add, IH.
  cbn [week_range map seq filter]. unfold rule_vo2.
  rewrite Z.add_0_l, Z.add_0_r.
  rewrite Nat2Z.inj_add. clear IH.
  destruct (Z.eqb_spec (Z.of_nat k mod 4) 3) as [E|E]; cbn [negb List.length];
    Z.div_mod_to_equations; lia.
Qed.

(** Weeks of an [n]-week plan that get a heat row. *)
Lemma heat_weeks_count (inputs : PlanInputs) (n : Z) :
  4 <= n ->
  List.length (filter (rule_heat inputs n) (week_range 0 (Z.to_nat n)))
  = match planType inputs, heatBlock inputs with
    | race, monoblock => 2%nat
    | race, biphasic => 4%nat
    | _, _ => 0%nat
    end.
Proof.
  intros Hfour.
  assert (Hno : forall l, (forall w, rule_heat inputs n w = false) ->
                  List.length (filter (rule_heat inputs n) l) = 0%nat).
  { intros l H. rewrite filter_none; [reflexivity|].
    apply Forall_forall. intros w _. apply H. }
  unfold rule_heat in *.
  destruct (planType inputs), (heatBlock inputs);
    try (apply Hno; reflexivity).
  - replace (Z.to_nat n) with (Z.to_nat (n - 2) + 2)%nat by lia.
    rewrite week_range_app, filter_app, length_app.
    rewrite filter_none, filter_all; [reflexivity| |];
      apply Forall_forall; intros w Hw; apply in_week_range in Hw;
      [apply Z.leb_le|apply Z.leb_gt]; lia.
  - replace (Z.to_nat n) with (2 + (Z.to_nat (n - 4) + 2))%nat by lia.
    rewrite !week_range_app, !filter_app, !length_app.
    rewrite (filter_all _ (week_range 0 2)),
      (filter_none _ (week_range (0 + Z.of_nat 2) _)),
      (filter_all _ (week_range (0 + Z.of_nat 2 + _) 2));
      [reflexivity| | |];
      apply Forall_forall; intros w Hw; apply in_week_range in Hw;
      destruct (Z.ltb_spec w 2), (Z.leb_spec (n - 2) w);
      cbn [orb]; (reflexivity || lia).
Qed.

Lemma extra_weeks_count (inputs : PlanInputs) :
  List.length (filter (rule_extra inputs) (week_range 0 12))
  = match planType inputs with
    | maintenance_plus => 3%nat
    | _ => 0%nat
    end.
Proof.
  unfold rule_extra. now destruct (planType inputs).
Qed.

(** X5. The size of a plan of [n] weeks: two rows a week, a VO2 row in all
    weeks but every fourth, plus 2 heat rows (monoblock) or 4 (biphasic) in a
    race plan, plus 3 extra rows in a maintenance-plus plan; that is
    [3 * n - floor (n / 4)] rows before the additions -- 33 for a maintenance
    plan, 36 for maintenance plus. *)
Theorem plan_row_count (rt : Runtime) (inputs : PlanInputs) (n : Z) :
  totalWeeks rt inputs = Num n ->
  exists rows,
    generatePlan rt inputs = Normal rows /\
    Z.of_nat (List.length rows)
    = 3 * n - n / 4
      + match planType inputs, heatBlock inputs with
        | race, monoblock => 2
        | race, biphasic => 4
        | _, _ => 0
        end
      + match planType inputs with
        | maintenance_plus => 3
        | _ => 0
        end.
Proof.
  intros Hn. destruct (generatePlan_normal rt inputs) as [rows Hrows].
  exists rows. split; [exact Hrows|].
  pose proof (totalWeeks_at_least_4 rt inputs n Hn) as Hfour.
  rewrite (Permutation_length (plan_rows_perm rt inputs n Hn rows Hrows)).
  rewrite length_plan_rows, !Nat2Z.inj_add, Nat2Z.inj_mul.
  rewrite vo2_weeks_count, (heat_weeks_count inputs n Hfour).
  assert (He : Z.of_nat (List.length (filter (rule_extra inputs)
                                        (week_range 0 (Z.to_nat n))))
               = match planType inputs with
                 | maintenance_plus => 3
                 | _ => 0
                 end).
  { destruct (planType inputs) eqn:Hpt.
    - rewrite filter_none; [reflexivity|].
      apply Forall_forall. intros w _. unfold rule_extra. now rewrite Hpt.
    - rewrite filter_none; [reflexivity|].
      apply Forall_forall. intros w _. unfold rule_extra. now rewrite Hpt.
    - assert (n = 12) as ->.
      { unfold totalWeeks in Hn. rewrite Hpt in Hn. now injection Hn. }
      change (Z.to_nat 12) with 12%nat.
      rewrite extra_weeks_count, Hpt. reflexivity. }
  rewrite He. unfold week_range at 1. rewrite length_map, length_seq.
  rewrite Z2Nat.id by lia.
  destruct (planType inputs), (heatBlock inputs); simpl Z.of_nat; lia.
Qed.

Lemma plan_row_count_witness :
  exists rows,
    generatePlan june2 (six_week_race biphasic) = Normal rows /\
    Z.of_nat (List.length rows) = 21.
Proof.
  exact (plan_row_count june2 (six_week_race biphasic) 6 eq_refl).
Defined.

(** X6. A race plan with a heat block holds exactly 2 heat rows with the
    monoblock option and exactly 4 with the biphasic option, however long
    the plan: the floor of four weeks keeps the first two and the last two
    weeks apart.  Every other plan holds none. *)
Theorem heat_rows_count (rt : Runtime) (inputs : PlanInputs) (n : Z) :
  totalWeeks rt inputs = Num n ->
  exists rows,
    generatePlan rt inputs = Normal rows /\
    List.length (filter (has_session hwi_session) rows)
    = match planType inputs, heatBlock inputs with
      | race, monoblock => 2%nat
      | race, biphasic => 4%nat
      | _, _ => 0%nat
      end.
Proof.
  intros Hn. destruct (generatePlan_normal rt inputs) as [rows Hrows].
  exists rows. split; [exact Hrows|].
  pose proof (totalWeeks_at_least_4 rt inputs n Hn) as Hfour.
  rewrite (Permutation_length
             (Permutation_filter _ _ _
                (plan_rows_perm rt inputs n Hn rows Hrows))).
  rewrite filter_flat_map.
  rewrite (flat_map_ext _ _ (fun w => week_rows_hwi rt inputs n w)).
  rewrite length_flat_map_rows_when.
  now apply heat_weeks_count.
Qed.

Lemma heat_rows_count_witness :
  exists rows,
    generatePlan june2 (six_week_race biphasic) = Normal rows /\
    List.length (filter (has_session hwi_session) rows) = 4%nat.
Proof.
  exact (heat_rows_count june2 (six_week_race biphasic) 6 eq_refl).
Defined.

(** X7. In a maintenance-plus plan the extra VO2 session comes every
    fourth week, not every other week: the odd weeks that are not deload
    weeks are the weeks with [w mod 4 = 1], and the extra rows of the twelve
    weeks are those of weeks 1, 5 and 9. *)
Theorem extra_vo2_every_fourth_week (rt : Runtime) (inputs : PlanInputs) :
  planType inputs = maintenance_plus ->
  (forall w, 0 <= w -> (Z.rem w 2 = 1 /\ Z.rem w 4 <> 3 <-> w mod 4 = 1))
  /\ exists rows,
       generatePlan rt inputs = Normal rows /\
       Permutation (filter (has_session additional_vo2_session) rows)
         [ {| date := date_format rt (now rt + 1 * 7 + 5);
              session := additional_vo2_session |};
           {| date := date_format rt (now rt + 5 * 7 + 5);
              session := additional_vo2_session |};
           {| date := date_format rt (now rt + 9 * 7 + 5);
              session := additional_vo2_session |} ].
Proof.
  intros Hpt. split.
  - intros w Hw. rewrite !Z.rem_mod_nonneg by lia.
    Z.div_mod_to_equations. lia.
  - assert (Hn : totalWeeks rt inputs = Num 12)
      by (unfold totalWeeks; now rewrite Hpt).
    destruct (generatePlan_normal rt inputs) as [rows Hrows].
    exists rows. split; [exact Hrows|].
    rewrite (Permutation_filter _ _ _
               (plan_rows_perm rt inputs 12 Hn rows Hrows)).
    rewrite filter_flat_map.
    rewrite (flat_map_ext _ _ (fun w => week_rows_additional rt inputs 12 w)).
    unfold rule_extra. rewrite Hpt. reflexivity.
Qed.

Lemma extra_vo2_every_fourth_week_witness :
  exists rows,
    generatePlan june2 hilly_maintenance_plus = Normal rows /\
    Permutation (filter (has_session additional_vo2_session) rows)
      [ {| date := "Sat, Jun 14 2025"; session := additional_vo2_session |};
        {| date := "Sat, Jul 12 2025"; session := additional_vo2_session |};
        {| date := "Sat, Aug 9 2025"; session := additional_vo2_session |} ].
Proof.
  exact (proj2 (extra_vo2_every_fourth_week june2 hilly_maintenance_plus
                  eq_refl)).
Defined.

(** ** When the plan is empty *)

Lemma totalWeeks_NaN_iff (rt : Runtime) (inputs : PlanInputs) :
  totalWeeks rt inputs = NaN <->
  planType inputs = race /\
  exists s, raceDate inputs = Some s /\ JS.truthy s = true /\
            date_parse rt s = InvalidDate.
Proof.
  unfold totalWeeks, raceDate_of, today. split.
  - destruct (planType inputs); try discriminate.
    cbv [strict_eq PlanType_eq]. cbv zeta.
    destruct (raceDate inputs) as [s|]; [|discriminate].
    destruct (JS.truthy s) eqn:Ht; [|discriminate].
    destruct (date_parse rt s) eqn:Hd; [|discriminate].
    intros _. split; [reflexivity|]. now exists s.
  - intros (-> & s & -> & -> & ->). reflexivity.
Qed.

Lemma generatePlan_empty_iff_NaN (rt : Runtime) (inputs : PlanInputs) :
  generatePlan rt inputs = Normal [] <-> totalWeeks rt inputs = NaN.
Proof.
  split.
  - intros Hempty. destruct (totalWeeks rt inputs) as [|n] eqn:Hn;
      [reflexivity|].
    pose proof (totalWeeks_at_least_4 rt inputs n Hn) as Hfour.
    assert (Hin : In (row_at rt (now rt + 0 * 7 + 6) (rule_long_run inputs 0))
                    []).
    { apply (plan_rows_in rt inputs n Hn [] Hempty).
      exists 0. split; [lia|]. now left. }
    destruct Hin.
  - apply generatePlan_NaN.
Qed.

(** X8. The generator returns the empty list in exactly one situation: a
    race plan whose race date is a non-empty string that does not parse.
    Every other input gets a plan with rows. *)
Theorem empty_plan_iff_unparseable_date (rt : Runtime)
    (inputs : PlanInputs) :
  generatePlan rt inputs = Normal [] <->
  planType inputs = race /\
  exists s, raceDate inputs = Some s /\ JS.truthy s = true /\
            date_parse rt s = InvalidDate.
Proof.
  rewrite <- totalWeeks_NaN_iff. apply generatePlan_empty_iff_NaN.
Qed.

Lemma empty_plan_iff_unparseable_date_witness :
  generatePlan june2 unparseable_race = Normal []
  /\ generatePlan june2 four_week_race <> Normal [].
Proof.
  split.
  - apply (proj2 (empty_plan_iff_unparseable_date june2 unparseable_race)).
    split; [reflexivity|]. now exists "not-a-date".
  - intros H.
    apply (proj1 (empty_plan_iff_unparseable_date june2 four_week_race)) in H.
    destruct H as (_ & s & Hs & _ & Hd).
    injection Hs as <-.
    change (Valid (now june2 + 28) = InvalidDate) in Hd. discriminate Hd.
Defined.

(** ** The race day and the end of the plan *)

(** X9. In a race plan whose race date parses to day [d], the last long run
    of the plan -- the longest one -- is dated no earlier than the day before
    the race; when the race is more than three weeks away it is dated at most
    five days after it.  The plan is not cut at the race day. *)
Theorem last_long_run_around_race_day (rt : Runtime) (inputs : PlanInputs)
    (s : string) (d : Z) :
  planType inputs = race ->
  raceDate inputs = Some s -> JS.truthy s = true ->
  date_parse rt s = Valid d ->
  exists n rows,
    totalWeeks rt inputs = Num n
    /\ generatePlan rt inputs = Normal rows
    /\ let last := now rt + (n - 1) * 7 + 6 in
       In {| date := date_format rt last;
             session := long_run_session (90 + 10 * (n - 1)) |} rows
       /\ d - 1 <= last
       /\ (21 < d - now rt -> last <= d + 5).
Proof.
  intros Hrace Hs Ht Hd.
  assert (Hr : raceDate_of rt inputs = Valid d)
    by (unfold raceDate_of; now rewrite Hs, Ht).
  pose proof (totalWeeks_race rt inputs d Hrace Hr) as Hn.
  rewrite ceil_div_7 in Hn.
  set (n := Z.max 4 ((d - now rt + 6) / 7)) in *.
  destruct (generatePlan_normal rt inputs) as [rows Hrows].
  exists n, rows. split; [exact Hn|]. split; [exact Hrows|].
  cbv zeta. split; [|subst n; split; [|intros Hfar];
                     Z.div_mod_to_equations; lia].
  apply (plan_rows_in rt inputs n Hn rows Hrows).
  exists (n - 1). split; [subst n; lia|].
  unfold week_rows, rule_long_run. rewrite Hrace. now left.
Qed.

Lemma last_long_run_around_race_day_witness :
  exists n rows,
    totalWeeks june2 (sample_inputs race (Some "2025-07-01") flat none)
    = Num n
    /\ generatePlan june2 (sample_inputs race (Some "2025-07-01") flat none)
       = Normal rows
    /\ let last := now june2 + (n - 1) * 7 + 6 in
       In {| date := date_format june2 last;
             session := long_run_session (90 + 10 * (n - 1)) |} rows
       /\ (now june2 + 29) - 1 <= last
       /\ (21 < now june2 + 29 - now june2 -> last <= now june2 + 29 + 5).
Proof.
  exact (last_long_run_around_race_day june2
           (sample_inputs race (Some "2025-07-01") flat none)
           "2025-07-01" (now june2 + 29) eq_refl eq_refl eq_refl eq_refl).
Defined.

(** X10. A later race date never gives a shorter plan. *)
Theorem later_race_never_shortens (rt : Runtime) (i1 i2 : PlanInputs)
    (s1 s2 : string) (d1 d2 : Z) :
  planType i1 = race -> planType i2 = race ->
  raceDate i1 = Some s1 -> JS.truthy s1 = true -> date_parse rt s1 = Valid d1 ->
  raceDate i2 = Some s2 -> JS.truthy s2 = true -> date_parse rt s2 = Valid d2 ->
  d1 <= d2 ->
  exists n1 n2,
    totalWeeks rt i1 = Num n1 /\ totalWeeks rt i2 = Num n2 /\ n1 <= n2.
Proof.
  intros Hr1 Hr2 Hs1 Ht1 Hd1 Hs2 Ht2 Hd2 Hle.
  assert (H1 : raceDate_of rt i1 = Valid d1)
    by (unfold raceDate_of; now rewrite Hs1, Ht1).
  assert (H2 : raceDate_of rt i2 = Valid d2)
    by (unfold raceDate_of; now rewrite Hs2, Ht2).
  rewrite (totalWeeks_race rt i1 d1 Hr1 H1), (totalWeeks_race rt i2 d2 Hr2 H2).
  rewrite !ceil_div_7. do 2 eexists. repeat split.
  Z.div_mod_to_equations. lia.
Qed.

Lemma later_race_never_shortens_witness :
  exists n1 n2,
    totalWeeks june2 four_week_race = Num n1
    /\ totalWeeks june2 (six_week_race none) = Num n2 /\ n1 <= n2.
Proof.
  apply (later_race_never_shortens june2 four_week_race (six_week_race none)
           "2025-06-30" "2025-07-14" (now june2 + 28) (now june2 + 42));
    (reflexivity || lia).
Defined.

(** ** Sorting again *)

(** X11. A returned plan is a fixed point of the sort: handing the rows to
    [rows.sort] with the same comparator once more changes nothing. *)
Theorem sorting_a_plan_again_changes_nothing (rt : Runtime)
    (inputs : PlanInputs) :
  plan_days_reparse rt inputs ->
  exists rows,
    generatePlan rt inputs = Normal rows /\
    array_sort (by_date rt) rows = rows.
Proof.
  intros Hrt.
  destruct (plan_cases rt inputs) as [[Hn Hrows]|(n & rows & Hn & _ & Hrows)];
    [exists []|exists rows]; (split; [exact Hrows|]); [reflexivity|].
  symmetry. apply (sorted_arrangement_unique (day_of rt)).
  - rewrite (plan_rows_by_day rt inputs n Hn Hrt rows Hrows) at 1.
    pose proof (totalWeeks_at_least_4 rt inputs n Hn).
    apply (plan_by_day_sorted rt inputs n Hn Hrt); lia.
  - apply (StronglySorted_weaken (day_le rt)); [apply day_le_key_le|].
    apply Sorted_StronglySorted; [exact (day_le_trans rt)|].
    apply array_sort_sorted.
    exact (plan_rows_dated rt inputs n Hn Hrt rows Hrows).
  - symmetry. apply array_sort_perm.
Qed.

Lemma sorting_a_plan_again_changes_nothing_witness :
  plan_days_reparse june2 four_week_race
  /\ exists rows,
       generatePlan june2 four_week_race = Normal rows /\
       array_sort (by_date june2) rows = rows.
Proof.
  assert (H : plan_days_reparse june2 four_week_race)
    by (apply (reparses_from_sound _ _ 4); reflexivity).
  split; [exact H|].
  exact (sorting_a_plan_again_changes_nothing june2 four_week_race H).
Defined.

(** * The preview *)

Lemma texts_preview_rows (rows : list PlanRow) (i : nat) :
  flat_map texts (map_index preview_row i rows)
  = flat_map (fun r => [date r; session r]) rows.
Proof.
  revert i. induction rows as [|r rows IH]; intros i; simpl; [reflexivity|].
  now rewrite IH.
Qed.

Lemma by_tag_preview_rows (rows : list PlanRow) (i : nat) :
  flat_map (by_tag "tr") (map_index preview_row i rows)
  = map_index preview_row i rows.
Proof.
  revert i. induction rows as [|r rows IH]; intros i; simpl; [reflexivity|].
  now rewrite IH.
Qed.

Lemma keys_preview_rows (rows : list PlanRow) (i : nat) :
  map key_of (map_index preview_row i rows)
  = map Some (seq i (List.length rows)).
Proof.
  revert i. induction rows as [|r rows IH]; intros i; simpl; [reflexivity|].
  now rewrite IH.
Qed.

Lemma PlanPreview_null_iff (rows : list PlanRow) :
  PlanPreview rows = None <-> rows = [].
Proof.
  unfold PlanPreview. destruct rows as [|r rows]; simpl; split;
    (reflexivity || discriminate).
Qed.

(** X12. The preview renders nothing for an empty plan and nothing but the
    plan otherwise: under the heading, the text of the table reads, row
    after row and in the order of the plan, the date and the session of each
    row unchanged, and the table rows carry the keys 0, 1, 2, ... -- one
    [<tr>] per plan row. *)
Theorem preview_shows_every_row (rows : list PlanRow) :
  (PlanPreview rows = None <-> rows = [])
  /\ forall e, PlanPreview rows = Some e ->
       texts e
       = "Plan preview" :: flat_map (fun r => [date r; session r]) rows
       /\ map key_of (by_tag "tr" e) = map Some (seq 0 (List.length rows)).
Proof.
  split; [apply PlanPreview_null_iff|].
  intros e He. unfold PlanPreview in He.
  destruct (List.length rows =? 0)%nat; [discriminate|].
  injection He as <-. split.
  - cbn [texts flat_map app]. now rewrite !app_nil_r, texts_preview_rows.
  - cbn [by_tag flat_map String.eqb Ascii.eqb Bool.eqb app].
    now rewrite !app_nil_r, by_tag_preview_rows, keys_preview_rows.
Qed.

Lemma preview_shows_every_row_witness :
  exists e,
    PlanPreview [ {| date := "Wed, Jun 4 2025";
                     session := threshold_session |};
                  {| date := "Fri, Jun 6 2025";
                     session := vo2max_session |} ] = Some e
    /\ texts e = [ "Plan preview"; "Wed, Jun 4 2025"; threshold_session;
                   "Fri, Jun 6 2025"; vo2max_session ]
    /\ map key_of (by_tag "tr" e) = [Some 0%nat; Some 1%nat].
Proof.
  eexists. split; [reflexivity|].
  apply (proj2 (preview_shows_every_row
                  [ {| date := "Wed, Jun 4 2025";
                       session := threshold_session |};
                    {| date := "Fri, Jun 6 2025";
                       session := vo2max_session |} ])).
  reflexivity.
Defined.

(** X13. After Generate, the preview is missing in exactly one situation: a
    race plan whose race date is a non-empty string that does not parse.
    The generator then returns the empty list without an error and the
    preview component returns null, so nothing is shown and nothing is
    reported.  For every other input a table is rendered. *)
Theorem preview_missing_iff_unparseable_date (rt : Runtime)
    (inputs : PlanInputs) :
  (exists view, preview_after_generate rt inputs = Normal view)
  /\ (preview_after_generate rt inputs = Normal None <->
      planType inputs = race /\
      exists s, raceDate inputs = Some s /\ JS.truthy s = true /\
                date_parse rt s = InvalidDate).
Proof.
  unfold preview_after_generate.
  destruct (generatePlan_normal rt inputs) as [rows Hrows].
  rewrite <- totalWeeks_NaN_iff, <- generatePlan_empty_iff_NaN.
  rewrite Hrows. cbn [bind]. split; [now eexists|].
  split.
  - intros [= Hnull]. apply PlanPreview_null_iff in Hnull. now subst.
  - intros [= ->]. reflexivity.
Qed.

Lemma preview_missing_iff_unparseable_date_witness :
  preview_after_generate june2 unparseable_race = Normal None.
Proof.
  apply (proj2 (preview_missing_iff_unparseable_date june2 unparseable_race)).
  split; [reflexivity|]. now exists "not-a-date".
Defined.

(** * Validation and the generator *)

(** X14. The schema of the form never looks at the race date: whether an
    input passes does not change with its [raceDate].  So validation does
    not keep unparseable dates away from the generator: from any accepted
    race input, putting a non-empty string that does not parse in place of
    the date gives an input that is accepted as well, and for which the
    generator returns the empty plan. *)
Theorem schema_lets_unparseable_dates_through (rt : Runtime)
    (inputs : PlanInputs) (s : string) :
  PlanSchema inputs = true -> planType inputs = race ->
  JS.truthy s = true -> date_parse rt s = InvalidDate ->
  (forall rd, PlanSchema (with_raceDate inputs rd) = PlanSchema inputs)
  /\ PlanSchema (with_raceDate inputs (Some s)) = true
  /\ generatePlan rt (with_raceDate inputs (Some s)) = Normal [].
Proof.
  intros Hok Hrace Ht Hd. split; [reflexivity|]. split; [exact Hok|].
  apply generatePlan_NaN, totalWeeks_NaN_iff.
  split; [exact Hrace|]. now exists s.
Qed.

Lemma schema_lets_unparseable_dates_through_witness :
  PlanSchema four_week_race = true
  /\ PlanSchema (with_raceDate four_week_race (Some "not-a-date")) = true
  /\ generatePlan june2 (with_raceDate four_week_race (Some "not-a-date"))
     = Normal [].
Proof.
  split; [reflexivity|].
  exact (proj2 (schema_lets_unparseable_dates_through june2 four_week_race
                  "not-a-date" eq_refl eq_refl eq_refl eq_refl)).
Defined.

(** * The volume ramp *)

(** X15. The defaults of the weekly volume: without [currentHours] (or with
    0, which the [||] test takes for missing) the ramp starts from 5 hours;
    without both volume inputs it aims at 10 hours for a race plan and at 8
    hours otherwise; and in a plan of more than one week the target of week
    0 is the starting volume itself. *)
Theorem volume_ramp_defaults (inputs : PlanInputs) :
  (currentHours inputs = None \/ currentHours inputs = Some 0%Q ->
   curHrs inputs = 5%Q)
  /\ (currentHours inputs = None -> maxHours inputs = None ->
      (maxHrs inputs == if planType inputs === race then 10 else 8)%Q)
  /\ (forall weeks, 1 < weeks ->
      (targetHrs inputs weeks 0 == curHrs inputs)%Q).
Proof.
  split; [|split].
  - unfold curHrs. now intros [-> | ->].
  - intros Hc Hm. unfold maxHrs, curHrs. rewrite Hc, Hm. simpl or_default.
    now destruct (planType inputs === race).
  - intros weeks Hw. unfold targetHrs, lerp.
    destruct (Z.ltb_spec 1 weeks); [|lia].
    assert (Ht : (inject_Z 0 / inject_Z (weeks - 1) == 0)%Q)
      by (unfold Qdiv; apply Qmult_0_l).
    rewrite Ht. ring.
Qed.

Lemma volume_ramp_defaults_witness :
  curHrs four_week_race = 5%Q
  /\ (maxHrs four_week_race == 10)%Q
  /\ (targetHrs four_week_race 4 0 == 5)%Q.
Proof.
  destruct (volume_ramp_defaults four_week_race) as (Hc & Hm & Ht).
  split; [exact (Hc (or_introl eq_refl))|].
  split; [exact (Hm eq_refl eq_refl)|].
  exact (Ht 4 eq_refl).
Defined.

(** * Weekdays *)

(** X16. The rows keep the weekday of the day the plan is generated on: the
    week starts are [today + 7 * w], not Mondays.  On the Gregorian
    runtime, the long run of every week is printed with the weekday that
    comes six days after today's, which is a Sunday exactly when the plan is
    generated on a Monday. *)
Theorem long_run_weekday_follows_today (today : Z) (inputs : PlanInputs)
    (w : Z) :
  plan_week (Gregorian.runtime today) inputs w ->
  exists rows rest,
    generatePlan (Gregorian.runtime today) inputs = Normal rows
    /\ In {| date :=
               nth (Z.to_nat ((Gregorian.weekday today + 6) mod 7))
                 Gregorian.weekdays "" ++ rest;
             session := long_run_session (longSeed inputs + w * 10) |} rows
    /\ ((Gregorian.weekday today + 6) mod 7 = 0 <->
        Gregorian.weekday today = 1).
Proof.
  intros Hw. set (rt := Gregorian.runtime today) in *.
  destruct (totalWeeks rt inputs) as [|n] eqn:Hn;
    [now apply (no_plan_week_NaN rt inputs w Hn) in Hw|].
  apply (plan_week_iff rt inputs n w Hn) in Hw.
  destruct (generatePlan_normal rt inputs) as [rows Hrows].
  assert (Hin : In (row_at rt (now rt + w * 7 + 6) (rule_long_run inputs w))
                  rows).
  { apply (plan_rows_in rt inputs n Hn rows Hrows).
    exists w. split; [exact Hw|]. now left. }
  rewrite <- longSeed_rule in Hin.
  unfold row_at in Hin. cbn [date_format rt Gregorian.runtime now] in Hin.
  unfold Gregorian.format in Hin.
  destruct (Gregorian.civil_from_days (today + w * 7 + 6)) as [[y m] d].
  assert (Hday : Gregorian.weekday (today + w * 7 + 6)
                 = (Gregorian.weekday today + 6) mod 7)
    by (unfold Gregorian.weekday; Z.div_mod_to_equations; lia).
  rewrite Hday in Hin.
  exists rows. eexists. split; [exact Hrows|]. split; [exact Hin|].
  unfold Gregorian.weekday. Z.div_mod_to_equations. lia.
Qed.

Lemma long_run_weekday_follows_today_witness :
  exists rows rest,
    generatePlan (Gregorian.runtime (Gregorian.monday + 2)) four_week_race
    = Normal rows
    /\ In {| date := "Tue" ++ rest;
             session := long_run_session (90 + 0 * 10) |} rows.
Proof.
  destruct (long_run_weekday_follows_today (Gregorian.monday + 2)
              four_week_race 0)
    as (rows & rest & Hrows & Hin & _).
  - split; [lia|reflexivity].
  - exists rows, rest. split; [exact Hrows|exact Hin].
Defined.
